(** * The balancer of the YDB Go driver (internal/balancer/balancer.go)

    A shallow embedding of the discovery orchestration, of the per-call
    dispatch with its pessimization feedback, and of the snapshot discipline
    of [Balancer], followed by the properties the specification states
    about them.

    Conventions.
    - Go's [int] is a 64-bit two's complement integer: it is a [Z] and the
      one arithmetic operation of the file ([failedCount*2]) wraps.
    - A method of [*Balancer] is a computation in the monad [M]: it reads and
      writes a [World] (the [Balancer] struct and the [Store] it points
      into), may panic (nil dereference), and emits the calls it makes to
      its collaborators as a chronological list of [Event]s.
    - [defer]red functions are written where Go runs them: after the value
      of the [return] statement has been assigned, last registered first.
    - Packages of the driver that the balancer only calls (connection pool,
      repeater, xerrors, the connections state and its selection) are
      either parameters (type classes) or small models written from the
      specification; each says so. *)

From Stdlib Require Import ZArith Bool.
From stdpp Require Import base option list gmap strings.

Local Open Scope string_scope.
Local Open Scope Z_scope.
Local Open Scope list_scope.

(** ** Integers *)

(** Go's [int] on the 64-bit platforms the driver targets. *)
Definition wrap64 (z : Z) : Z := (z + 2 ^ 63) mod 2 ^ 64 - 2 ^ 63.

(** ** Contexts *)

(** What [ctx.Err()] can be once a context is done. *)
Inductive CtxErr := CtxDeadlineExceeded | CtxCanceled.

(** A [context.Context] by the way it was derived. [Background n] is a root
    context handed in by a caller; [WithValue] stands for every derivation
    that only attaches values (call metadata). *)
Inductive Ctx :=
| Background (id : nat)
| WithTimeout (parent : Ctx) (timeout : Z)
| WithCancel (parent : Ctx)
| WithValue (parent : Ctx) (key : string).

#[global] Instance CtxErr_eq_dec : EqDecision CtxErr.
Proof. solve_decision. Defined.

#[global] Instance Ctx_eq_dec : EqDecision Ctx.
Proof. solve_decision. Defined.

(** ** Errors *)

(** Error values, with the wrappers the balancer applies kept as
    constructors so that identity ([errors.Is]) can look through them. *)
Inductive error :=
| ContextError (k : CtxErr)              (* context.DeadlineExceeded, context.Canceled *)
| TransportError (code : Z) (msg : string) (* a gRPC status error *)
| ErrorString (msg : string)             (* fmt.Errorf / errors.New without %w *)
| Errorf (format : string) (wrapped : error) (arg : Z) (* fmt.Errorf("%w ... %d", wrapped, arg) *)
| Wrap (e : error)                       (* xerrors.Wrap *)
| WithStackTrace (e : error)             (* xerrors.WithStackTrace *)
| Retryable (e : error).                 (* xerrors.Retryable *)

#[global] Instance error_eq_dec : EqDecision error.
Proof. solve_decision. Defined.

(** [var ErrNoEndpoints = xerrors.Wrap(fmt.Errorf("no endpoints"))] *)
Definition ErrNoEndpoints : error := Wrap (ErrorString "no endpoints").

(** [errors.Is]: the error itself or anything on its [Unwrap] chain. *)
Fixpoint errorsIs (err target : error) : bool :=
  if decide (err = target) then true
  else match err with
       | Errorf _ e _ | Wrap e | WithStackTrace e | Retryable e => errorsIs e target
       | _ => false
       end.

(** [xerrors.Is(err, targets...)]: [err] is one of the targets. The package
    is not part of the sources at hand; this is Go's [errors.Is] over each
    target. *)
Definition Is (err : error) (targets : list error) : bool :=
  existsb (errorsIs err) targets.

(** The integer operand an error message was formatted with, looking
    through the stack-trace wrappers. *)
Fixpoint errorAttempts (err : error) : option Z :=
  match err with
  | Errorf _ _ n => Some n
  | WithStackTrace e => errorAttempts e
  | _ => None
  end.

(** ** Endpoints and connections *)

(** [endpoint.Endpoint]: a discovered node. [endpoint.Info] and
    [trace.EndpointInfo] are read-only views of the same value. *)
Record Endpoint := {
  Address : string;
  Location : string;
  LoadFactor : Z;
  NodeID : Z;
}.

#[global] Instance Endpoint_eq_dec : EqDecision Endpoint.
Proof. solve_decision. Defined.

(** [endpoint.New(address)]: an endpoint known by its address only. *)
Definition endpointNew (address : string) : Endpoint :=
  {| Address := address; Location := ""; LoadFactor := 0; NodeID := 0 |}.

(** [conn.Conn]: a pooled handle bound to one endpoint. The pool keys its
    connections by address, so two handles for one address share their
    health. *)
Record Conn := { connEndpoint : Endpoint }.

#[global] Instance Conn_eq_dec : EqDecision Conn.
Proof. solve_decision. Defined.

(** Health of a pooled connection. *)
Inductive ConnState := Allowed | Banned.

#[global] Instance ConnState_eq_dec : EqDecision ConnState.
Proof. solve_decision. Defined.

(** ** Configuration *)

(** [balancerConfig.Info] *)
Record Info := { SelfLocation : string }.

Definition PreferConnFunc : Type := Info -> Conn -> bool.

(** [balancerConfig.Config], the fields the balancer reads. *)
Record BalancerConfig := {
  IsPreferConn : option PreferConnFunc;
  AllowFalback : bool;
  SingleConn : bool;
  DetectlocalDC : bool;
}.

(** The zero value [balancerConfig.Config{}]. *)
Definition BalancerConfigZero : BalancerConfig :=
  {| IsPreferConn := None; AllowFalback := false; SingleConn := false;
     DetectlocalDC := false |}.

(** [discoveryConfig.Config], the field the balancer reads. *)
Record DiscoveryConfig := { Interval : Z }.

(** ** The store: everything the balancer points into *)

Section WithEnv.

(** The state of the world outside the driver (network, servers, clock of
    the application): collaborators read and change it. *)
Context {Env : Type}.

(** The connection pool's health flags and the endpoints' last-seen stamps
    (by address), the wall clock, the contexts that are done, and the
    environment. *)
Record Store := {
  health : gmap string ConnState;
  lastSeen : gmap string Z;
  clock : Z;
  done : Ctx -> option CtxErr;
  env : Env;
}.

Definition set_health (f : gmap string ConnState -> gmap string ConnState) (s : Store) : Store :=
  {| health := f (health s); lastSeen := lastSeen s; clock := clock s;
     done := done s; env := env s |}.

Definition set_lastSeen (f : gmap string Z -> gmap string Z) (s : Store) : Store :=
  {| health := health s; lastSeen := f (lastSeen s); clock := clock s;
     done := done s; env := env s |}.

Definition set_done (f : (Ctx -> option CtxErr) -> Ctx -> option CtxErr) (s : Store) : Store :=
  {| health := health s; lastSeen := lastSeen s; clock := clock s;
     done := f (done s); env := env s |}.

(** [ctx.Err()]: a context is done when it was cancelled or timed out
    itself, or when an ancestor is done. *)
Fixpoint ctxErr (s : Store) (ctx : Ctx) : option CtxErr :=
  match done s ctx with
  | Some k => Some k
  | None =>
      match ctx with
      | Background _ => None
      | WithTimeout p _ | WithCancel p | WithValue p _ => ctxErr s p
      end
  end.

(** The [cancel] function of [context.WithTimeout]/[context.WithCancel]:
    the first cause sticks. *)
Definition cancelCtx (ctx : Ctx) (s : Store) : Store :=
  match ctxErr s ctx with
  | Some _ => s
  | None => set_done (fun d c => if decide (c = ctx) then Some CtxCanceled else d c) s
  end.

(** *** The connection pool *)

(** Modelled from the spec: the Connection Pool ([conn.Pool], package
    internal/conn) is not among the sources. The specification gives it as
    [Get(Endpoint) -> Connection], [Ban(ctx, Connection, error)],
    [Allow(ctx, Connection)] and [Connection.State() -> {Allowed, Banned}],
    "per-connection health toggling (ban/allow) and health query". A
    connection nobody banned is Allowed. *)
Definition poolGet (e : Endpoint) : Conn := {| connEndpoint := e |}.

Definition GetState (s : Store) (c : Conn) : ConnState :=
  default Allowed (health s !! Address (connEndpoint c)).

Definition poolAllow (c : Conn) (s : Store) : Store :=
  set_health <[Address (connEndpoint c) := Allowed]> s.

Definition poolBan (c : Conn) (cause : error) (s : Store) : Store :=
  set_health <[Address (connEndpoint c) := Banned]> s.

(** Modelled from the spec: [Endpoint.Touch] (package internal/endpoint) is
    not among the sources; re-discovering an address "refreshes its
    last-seen timestamp". *)
Definition Touch (c : Conn) (s : Store) : Store :=
  set_lastSeen <[Address (connEndpoint c) := clock s]> s.

(** *** The driver configuration *)

(** [config.Config], the methods the balancer calls. [Meta().Context(ctx)]
    may reach credentials providers, so it runs against the store. *)
Record Config := {
  Endpoint_ : string;
  DialTimeout : Z;
  BalancerCfg : option BalancerConfig;
  MetaContext : Ctx -> Store -> (Ctx * option error) * Store;
  ExcludeGRPCCodesForPessimization : list Z;
}.

End WithEnv.

Arguments Store : clear implicits.
Arguments Config : clear implicits.

(** ** Collaborators *)

(** The connections state ([connectionsState], file connections_state.go of
    the package) is not among the sources: the balancer is written against
    its constructor and its two methods, whatever they are. Selection reads
    the health of the connections, given here as the pool's view at the
    time of the call. *)
Class Selector := {
  ConnectionsState : Type;
  newConnectionsState :
    list Conn -> option PreferConnFunc -> Info -> bool -> ConnectionsState;
  PreferredCount : ConnectionsState -> Z;
  GetConnection : ConnectionsState -> Ctx -> (Conn -> ConnState) -> option Conn * Z;
}.

(** What the balancer calls outside the package, as functions of the
    store: the discovery client ([grpc.DialContext] on a target, then
    [Discover] and [Close]), the locality detector, the update subscribers
    (registered callbacks, named by a handle), and the two pure
    classifiers of [xerrors] and [conn]. *)
Class Externals (Env : Type) := {
  dialContext : string -> Ctx -> Store Env -> option error * Store Env;
  clientDiscover : Ctx -> Store Env -> (list Endpoint * option error) * Store Env;
  clientClose : Ctx -> Store Env -> Store Env;
  detectLocalDC : Ctx -> list Endpoint -> Store Env -> (string * option error) * Store Env;
  subscriber : nat -> Ctx -> list Endpoint -> Store Env -> Store Env;
  MustPessimizeEndpoint : error -> list Z -> bool;
  UseWrapping : Ctx -> bool;
}.

(** The operation a call is wrapped around: [func(ctx, cc) error]. *)
Definition Operation (Env : Type) : Type :=
  Ctx -> Conn -> Store Env -> option error * Store Env.

(** ** The repeater *)

(** Modelled from the spec: the Repeater (package internal/repeater) is not
    among the sources. It "runs a supplied operation on a fixed interval on
    a background schedule; supports an out-of-band immediate run (force)
    and a stop signal"; [Stop] is idempotent. The record keeps the interval,
    whether it was stopped, and how many immediate runs were asked for. *)
Record Repeater := {
  repInterval : Z;
  repStopped : bool;
  repForced : nat;
}.

Definition repeaterNew (d : Z) : Repeater :=
  {| repInterval := d; repStopped := false; repForced := 0 |}.

Definition repeaterForce (r : Repeater) : Repeater :=
  {| repInterval := repInterval r; repStopped := repStopped r;
     repForced := S (repForced r) |}.

Definition repeaterStop (r : Repeater) : Repeater :=
  {| repInterval := repInterval r; repStopped := true; repForced := repForced r |}.

(** ** Events *)

(** The driver's trace hooks, start and done. *)
Inductive TraceEvent :=
| OnBalancerInit
| OnBalancerInitDone (err : option error)
| OnBalancerUpdate (needLocalDC : bool)
| OnBalancerUpdateDone (nodes : list Endpoint) (localDC : string) (err : option error)
| OnBalancerClose
| OnBalancerCloseDone (err : option error)
| OnBalancerChooseEndpoint
| OnBalancerChooseEndpointDone (e : option Endpoint) (err : option error).

(** The calls a method makes, in the order it makes them. *)
Inductive Event :=
| EvTrace (t : TraceEvent)
| EvRLock | EvRUnlock                 (* b.mu.RLock / RUnlock *)
| EvLock | EvUnlock                   (* b.mu.WithLock *)
| EvRead                              (* read of b.connectionsState *)
| EvPublish                           (* write of b.connectionsState *)
| EvSubscribe (sub : nat)             (* append to b.onDiscovery *)
| EvNotify (sub : nat) (ctx : Ctx) (endpoints : list Endpoint)
| EvPoolGet (e : Endpoint)
| EvPoolAllow (ctx : Ctx) (c : Conn)
| EvPoolBan (ctx : Ctx) (c : Conn) (cause : error)
| EvTouch (c : Conn)
| EvDial (target : string) (ctx : Ctx)
| EvDiscover (ctx : Ctx)
| EvClientClose (ctx : Ctx)
| EvDetectLocalDC (ctx : Ctx)
| EvCancel (ctx : Ctx)
| EvSelect (ctx : Ctx)                (* state.GetConnection *)
| EvMeta (ctx : Ctx)
| EvOperation (ctx : Ctx) (c : Conn)
| EvRepeaterNew (d : Z)
| EvForce
| EvStop.

#[global] Instance TraceEvent_eq_dec : EqDecision TraceEvent.
Proof. solve_decision. Defined.

#[global] Instance Event_eq_dec : EqDecision Event.
Proof. solve_decision. Defined.

(** The events of a discovery attempt: dialling the discovery client,
    enumerating the endpoints, detecting the location. *)
Definition isDiscoveryEvent (e : Event) : bool :=
  match e with
  | EvDial _ _ | EvDiscover _ | EvDetectLocalDC _ | EvClientClose _ => true
  | EvTrace (OnBalancerUpdate _) | EvTrace (OnBalancerUpdateDone _ _ _) => true
  | _ => false
  end.

(** ** The balancer and its monad *)

Section Model.

Context {Env : Type} `{Sel : Selector} `{Ext : Externals Env}.

(** [type Balancer struct]. The pool lives in the store; [discoveryClient]
    and [localDCDetector] are the collaborators above; [mu] shows as lock
    events; [onDiscovery] holds the handles of the registered callbacks;
    a nil [*connectionsState] or [repeater.Repeater] is [None]. *)
Record Balancer := {
  driverConfig : Config Env;
  balancerConfig : BalancerConfig;
  discoveryRepeater : option Repeater;
  connectionsState : option ConnectionsState;
  onDiscovery : list nat;
}.

Record World := {
  store : Store Env;
  bal : Balancer;
}.

Definition set_store (f : Store Env -> Store Env) (w : World) : World :=
  {| store := f (store w); bal := bal w |}.

Definition set_bal (f : Balancer -> Balancer) (w : World) : World :=
  {| store := store w; bal := f (bal w) |}.

Definition set_discoveryRepeater (r : option Repeater) (b : Balancer) : Balancer :=
  {| driverConfig := driverConfig b; balancerConfig := balancerConfig b;
     discoveryRepeater := r; connectionsState := connectionsState b;
     onDiscovery := onDiscovery b |}.

Definition set_connectionsState (s : option ConnectionsState) (b : Balancer) : Balancer :=
  {| driverConfig := driverConfig b; balancerConfig := balancerConfig b;
     discoveryRepeater := discoveryRepeater b; connectionsState := s;
     onDiscovery := onDiscovery b |}.

Definition set_onDiscovery (l : list nat) (b : Balancer) : Balancer :=
  {| driverConfig := driverConfig b; balancerConfig := balancerConfig b;
     discoveryRepeater := discoveryRepeater b;
     connectionsState := connectionsState b; onDiscovery := l |}.

Definition set_balancerConfig (c : BalancerConfig) (b : Balancer) : Balancer :=
  {| driverConfig := driverConfig b; balancerConfig := c;
     discoveryRepeater := discoveryRepeater b;
     connectionsState := connectionsState b; onDiscovery := onDiscovery b |}.

(** A computation: from a world to a result, the world after, and the
    events emitted on the way; [None] is a panic. *)
Definition M (A : Type) : Type := World -> option (A * World * list Event).

Definition ret {A} (a : A) : M A := fun w => Some (a, w, []).

Definition bind {A B} (m : M A) (k : A -> M B) : M B :=
  fun w =>
    match m w with
    | None => None
    | Some (a, w1, evs1) =>
        match k a w1 with
        | None => None
        | Some (b, w2, evs2) => Some (b, w2, evs1 ++ evs2)
        end
    end.

Definition panic {A} : M A := fun _ => None.

Definition emit (e : Event) : M unit := fun w => Some (tt, w, [e]).

Definition gets {A} (f : World -> A) : M A := fun w => Some (f w, w, []).

Definition modify (f : World -> World) : M unit := fun w => Some (tt, f w, []).

(** A call to a collaborator: it works on the store. *)
Definition call {A} (g : Store Env -> A * Store Env) : M A :=
  fun w => let '(a, s) := g (store w) in Some (a, set_store (fun _ => s) w, []).

Definition exec (g : Store Env -> Store Env) : M unit :=
  modify (set_store g).

(** A loop over a slice. *)
Fixpoint forEach {A} (l : list A) (body : A -> M unit) : M unit :=
  match l with
  | [] => ret tt
  | x :: l' => bind (body x) (fun _ => forEach l' body)
  end.

End Model.

Declare Scope balancer_scope.
Delimit Scope balancer_scope with bal.
Notation "x <- m ;; k" := (bind m (fun x => k))
  (at level 100, m at next level, right associativity) : balancer_scope.
Notation "m ;; k" := (bind m (fun _ => k))
  (at level 100, right associativity) : balancer_scope.

Arguments Balancer Env {Sel}.
Arguments World Env {Sel}.
Arguments M Env {Sel} A.

(** The Retry Policy ([retry.Retry], package retry) is not among the
    sources: it runs an operation, maybe several times, and gives back an
    error or nil. *)
Class RetryPolicy (Env : Type) `{Sel : Selector} := {
  Retry : Ctx -> (Ctx -> M Env (option error)) -> bool -> M Env (option error);
}.

(** ** The methods of the balancer *)

Section Methods.

Context {Env : Type} `{Sel : Selector} `{Ext : Externals Env}
        `{Rty : !RetryPolicy Env}.

Local Open Scope balancer_scope.

#[local] Abbreviation M := (M Env).

(** [func (b *Balancer) OnUpdate(onDiscovery ...)] *)
Definition OnUpdate (sub : nat) : M unit :=
  emit EvLock ;;
  emit (EvSubscribe sub) ;;
  modify (set_bal (fun b => set_onDiscovery (onDiscovery b ++ [sub]) b)) ;;
  emit EvUnlock.

(** [func endpointsToConnections(p *conn.Pool, endpoints []endpoint.Endpoint) []conn.Conn] *)
Fixpoint endpointsToConnections (endpoints : list Endpoint) : M (list Conn) :=
  match endpoints with
  | [] => ret []
  | e :: es =>
      emit (EvPoolGet e) ;;
      conns <- endpointsToConnections es ;;
      ret (poolGet e :: conns)
  end.

(** The body of the first loop of [applyDiscoveredEndpoints]:
    [b.pool.Allow(ctx, c); c.Endpoint().Touch()]. *)
Definition allowAndTouch (ctx : Ctx) (c : Conn) : M unit :=
  emit (EvPoolAllow ctx c) ;;
  exec (poolAllow c) ;;
  emit (EvTouch c) ;;
  exec (Touch c).

(** The function passed to [b.mu.WithLock] by [applyDiscoveredEndpoints]. *)
Definition publish (ctx : Ctx) (state : ConnectionsState) (endpointsInfo : list Endpoint) : M unit :=
  emit EvPublish ;;
  modify (set_bal (set_connectionsState (Some state))) ;;
  subs <- gets (fun w => onDiscovery (bal w)) ;;
  forEach subs (fun sub =>
    emit (EvNotify sub ctx endpointsInfo) ;;
    exec (subscriber sub ctx endpointsInfo)).

(** [func (b *Balancer) applyDiscoveredEndpoints(ctx, endpoints, localDC)] *)
Definition applyDiscoveredEndpoints (ctx : Ctx) (endpoints : list Endpoint) (localDC : string) : M unit :=
  connections <- endpointsToConnections endpoints ;;
  forEach connections (allowAndTouch ctx) ;;
  b <- gets bal ;;
  let info := {| SelfLocation := localDC |} in
  let state := newConnectionsState connections (IsPreferConn (balancerConfig b)) info
                 (AllowFalback (balancerConfig b)) in
  let endpointsInfo := endpoints in
  emit EvLock ;;
  publish ctx state endpointsInfo ;;
  emit EvUnlock.

(** The closure [b.discoveryClient] that [New] installs: dial the driver's
    endpoint; the client is the dialled connection. *)
Definition discoveryClient (ctx : Ctx) : M (option error) :=
  b <- gets bal ;;
  let target := ("dns:///" ++ Endpoint_ (driverConfig b))%string in
  emit (EvDial target ctx) ;;
  err <- call (dialContext target ctx) ;;
  match err with
  | Some err => ret (Some (WithStackTrace err))
  | None => ret None
  end.

(** [clusterDiscoveryAttempt] from [client.Discover] to its last [return],
    that is, under the deferred [client.Close]: the endpoints and the
    location found so far and the value returned. *)
Definition discoverAndApply (childCtx : Ctx) : M (list Endpoint * string * option error) :=
  b <- gets bal ;;
  emit (EvDiscover childCtx) ;;
  r <- call (clientDiscover childCtx) ;;
  let endpoints := fst r in
  match snd r with
  | Some err => ret (endpoints, "", Some (WithStackTrace err))
  | None =>
      if DetectlocalDC (balancerConfig b) then
        emit (EvDetectLocalDC childCtx) ;;
        r <- call (detectLocalDC childCtx endpoints) ;;
        let localDC := fst r in
        match snd r with
        | Some err => ret (endpoints, localDC, Some (WithStackTrace err))
        | None =>
            applyDiscoveredEndpoints childCtx endpoints localDC ;;
            ret (endpoints, localDC, None)
        end
      else
        applyDiscoveredEndpoints childCtx endpoints "" ;;
        ret (endpoints, "", None)
  end.

(** [clusterDiscoveryAttempt] from the derivation of the child context to
    its [return], with the deferred [client.Close(ctx)] and [cancel()]: what
    the first deferred function finds in [endpoints], [localDC] and [err]. *)
Definition discoveryAttemptBody (ctx : Ctx) : M (list Endpoint * string * option error) :=
  b <- gets bal ;;
  let dialTimeout := DialTimeout (driverConfig b) in
  let childCtx := if 0 <? dialTimeout then WithTimeout ctx dialTimeout
                  else WithCancel ctx in
  err <- discoveryClient childCtx ;;
  r <- match err with
       | Some err => ret ([], "", Some (WithStackTrace err))
       | None =>
           r <- discoverAndApply childCtx ;;
           emit (EvClientClose ctx) ;;
           exec (clientClose ctx) ;;
           ret r
       end ;;
  emit (EvCancel childCtx) ;;
  exec (cancelCtx childCtx) ;;
  ret r.

(** The targets of the deferred test of [clusterDiscoveryAttempt]. *)
Definition contextErrors : list error :=
  [ContextError CtxDeadlineExceeded; ContextError CtxCanceled].

(** The first deferred function of [clusterDiscoveryAttempt], on the error
    value: "if got err but parent context is not done - mark error as
    retryable". *)
Definition markRetryable (s : Store Env) (ctx : Ctx) (err : option error) : option error :=
  match err with
  | Some e =>
      if bool_decide (ctxErr s ctx = None) && Is e contextErrors
      then Some (WithStackTrace (Retryable e))
      else Some e
  | None => None
  end.

(** [func (b *Balancer) clusterDiscoveryAttempt(ctx) (err error)] *)
Definition clusterDiscoveryAttempt (ctx : Ctx) : M (option error) :=
  b <- gets bal ;;
  emit (EvTrace (OnBalancerUpdate (DetectlocalDC (balancerConfig b)))) ;;
  r <- discoveryAttemptBody ctx ;;
  let endpoints := fst (fst r) in
  let localDC := snd (fst r) in
  s <- gets store ;;
  let err := markRetryable s ctx (snd r) in
  emit (EvTrace (OnBalancerUpdateDone endpoints localDC err)) ;;
  ret err.

(** [func (b *Balancer) clusterDiscovery(ctx) (err error)] *)
Definition clusterDiscovery (ctx : Ctx) : M (option error) :=
  err <- Retry ctx (fun ctx =>
           err <- clusterDiscoveryAttempt ctx ;;
           match err with
           | Some err => ret (Some (WithStackTrace err))
           | None => ret None
           end) true ;;
  match err with
  | Some err => ret (Some (WithStackTrace err))
  | None => ret None
  end.

(** [func (b *Balancer) Close(ctx) (err error)] *)
Definition Close (ctx : Ctx) : M (option error) :=
  emit (EvTrace OnBalancerClose) ;;
  b <- gets bal ;;
  match discoveryRepeater b with
  | Some r =>
      emit EvStop ;;
      modify (set_bal (set_discoveryRepeater (Some (repeaterStop r))))
  | None => ret tt
  end ;;
  emit (EvTrace (OnBalancerCloseDone None)) ;;
  ret None.

(** [New] between the construction of [b] and its [return]. *)
Definition initBalancer (ctx : Ctx) (dc : DiscoveryConfig) : M (option error) :=
  b <- gets bal ;;
  if SingleConn (balancerConfig b) then
    conns <- endpointsToConnections [endpointNew (Endpoint_ (driverConfig b))] ;;
    emit EvPublish ;;
    modify (set_bal (set_connectionsState
      (Some (newConnectionsState conns None {| SelfLocation := "" |} false)))) ;;
    ret None
  else
    err <- clusterDiscovery ctx ;;
    match err with
    | Some err => ret (Some (WithStackTrace err))
    | None =>
        let d := Interval dc in
        (if 0 <? d then
           emit (EvRepeaterNew d) ;;
           modify (set_bal (set_discoveryRepeater (Some (repeaterNew d))))
         else ret tt) ;;
        ret None
    end.

(** [func New(ctx, driverConfig, pool, opts...) (b *Balancer, err error)]:
    the balancer, or the error, with the store after and the events. *)
Definition New (ctx : Ctx) (cfg : Config Env) (dc : DiscoveryConfig) (s : Store Env)
  : option ((Balancer Env + error) * Store Env * list Event) :=
  let b := {| driverConfig := cfg;
              balancerConfig := match BalancerCfg cfg with
                                | None => BalancerConfigZero
                                | Some config => config
                                end;
              discoveryRepeater := None;
              connectionsState := None;
              onDiscovery := [] |} in
  match (emit (EvTrace OnBalancerInit) ;;
         err <- initBalancer ctx dc ;;
         emit (EvTrace (OnBalancerInitDone err)) ;;
         ret err) {| store := s; bal := b |} with
  | None => None
  | Some (Some err, w, evs) => Some (inr err, store w, evs)
  | Some (None, w, evs) => Some (inl (bal w), store w, evs)
  end.

(** [func (b *Balancer) connections() *connectionsState] *)
Definition connections : M (option ConnectionsState) :=
  emit EvRLock ;;
  emit EvRead ;;
  state <- gets (fun w => connectionsState (bal w)) ;;
  emit EvRUnlock ;;
  ret state.

(** The deferred test of [getConn] on the state it captured:
    [failedCount*2 > state.PreferredCount() && b.discoveryRepeater != nil]. *)
Definition forceIfManyFailed (state : ConnectionsState) (failedCount : Z) : M unit :=
  b <- gets bal ;;
  if PreferredCount state <? wrap64 (failedCount * 2) then
    match discoveryRepeater b with
    | Some r =>
        emit EvForce ;;
        modify (set_bal (set_discoveryRepeater (Some (repeaterForce r))))
    | None => ret tt
    end
  else ret tt.

(** The format of the error of [getConn]. *)
Definition noConnFormat : string :=
  "%w: cannot get connection from Balancer after %d attempts".

(** [getConn] once it holds the state: selection, the deferred test, the
    trace. The state is the captured one; [b.connectionsState] is not read
    again. *)
Definition getConnFrom (state : ConnectionsState) (ctx : Ctx) : M (Conn + error) :=
  emit (EvSelect ctx) ;;
  s <- gets store ;;
  let r := GetConnection state ctx (GetState s) in
  let failedCount := snd r in
  let res := match fst r with
             | None => inr (WithStackTrace (Errorf noConnFormat ErrNoEndpoints failedCount))
             | Some c => inl c
             end in
  forceIfManyFailed state failedCount ;;
  emit (EvTrace (match res with
                 | inl c => OnBalancerChooseEndpointDone (Some (connEndpoint c)) None
                 | inr err => OnBalancerChooseEndpointDone None (Some err)
                 end)) ;;
  ret res.

(** [func (b *Balancer) getConn(ctx) (c conn.Conn, err error)]: a
    connection or an error. A nil state is dereferenced: panic. *)
Definition getConn (ctx : Ctx) : M (Conn + error) :=
  emit (EvTrace OnBalancerChooseEndpoint) ;;
  s <- gets store ;;
  match ctxErr s ctx with
  | Some k =>
      let err := WithStackTrace (ContextError k) in
      emit (EvTrace (OnBalancerChooseEndpointDone None (Some err))) ;;
      ret (inr err)
  | None =>
      state <- connections ;;
      match state with
      | None => panic
      | Some state => getConnFrom state ctx
      end
  end.

(** The deferred function of [wrapCall]. *)
Definition reportOutcome (ctx : Ctx) (cc : Conn) (err : option error) : M unit :=
  match err with
  | None =>
      s <- gets store ;;
      if decide (GetState s cc = Banned) then
        emit (EvPoolAllow ctx cc) ;;
        exec (poolAllow cc)
      else ret tt
  | Some err =>
      b <- gets bal ;;
      if MustPessimizeEndpoint err (ExcludeGRPCCodesForPessimization (driverConfig b)) then
        emit (EvPoolBan ctx cc err) ;;
        exec (poolBan cc err)
      else ret tt
  end.

(** [func (b *Balancer) wrapCall(ctx, f) (err error)] *)
Definition wrapCall (ctx : Ctx) (f : Operation Env) : M (option error) :=
  r <- getConn ctx ;;
  match r with
  | inr err => ret (Some (WithStackTrace err))
  | inl cc =>
      b <- gets bal ;;
      emit (EvMeta ctx) ;;
      m <- call (MetaContext (driverConfig b) ctx) ;;
      let ctx := fst m in
      err <- match snd m with
             | Some err => ret (Some (WithStackTrace err))
             | None =>
                 emit (EvOperation ctx cc) ;;
                 err <- call (f ctx cc) ;;
                 match err with
                 | Some err =>
                     if UseWrapping ctx then ret (Some (WithStackTrace err))
                     else ret (Some err)
                 | None => ret None
                 end
             end ;;
      reportOutcome ctx cc err ;;
      ret err
  end.

End Methods.

(** ** The instance's life: calls and background runs *)

Section Lifecycle.

Context {Env : Type} `{Sel : Selector} `{Ext : Externals Env}
        `{Rty : !RetryPolicy Env}.

Local Open Scope balancer_scope.

(** Modelled from the spec: a run of the Repeater's task, periodic or
    forced; [repeater.New(d, b.clusterDiscoveryAttempt, ...)] makes the
    task a discovery attempt. A balancer without a repeater, or with a
    stopped one, has no such run. *)
Definition repeaterRun (ctx : Ctx) : M Env unit :=
  b <- gets bal ;;
  match discoveryRepeater b with
  | Some r =>
      if repStopped r then ret tt
      else clusterDiscoveryAttempt ctx ;; ret tt
  | None => ret tt
  end.

(** What can happen to a balancer once [New] returned it. *)
Inductive Action :=
| DoGetConn (ctx : Ctx)
| DoWrapCall (ctx : Ctx) (f : Operation Env)
| DoOnUpdate (sub : nat)
| DoClose (ctx : Ctx)
| DoRepeaterRun (ctx : Ctx).

Definition perform (a : Action) : M Env unit :=
  match a with
  | DoGetConn ctx => getConn ctx ;; ret tt
  | DoWrapCall ctx f => wrapCall ctx f ;; ret tt
  | DoOnUpdate sub => OnUpdate sub
  | DoClose ctx => Close ctx ;; ret tt
  | DoRepeaterRun ctx => repeaterRun ctx
  end.

Definition performAll (l : list Action) : M Env unit := forEach l perform.

End Lifecycle.

(** ** Notions the properties are stated with *)

Section Derived.

Context {Env : Type} `{Sel : Selector} `{Ext : Externals Env}.

(** The first loop of [applyDiscoveredEndpoints] on the store. *)
Definition allowAll (conns : list Conn) (s : Store Env) : Store Env :=
  foldl (fun s c => Touch c (poolAllow c s)) s conns.

(** What [getConn] returns for a result of the selection. *)
Definition selected (r : option Conn * Z) : Conn + error :=
  match fst r with
  | None => inr (WithStackTrace (Errorf noConnFormat ErrNoEndpoints (snd r)))
  | Some c => inl c
  end.

Definition chooseDone (res : Conn + error) : Event :=
  EvTrace (match res with
           | inl c => OnBalancerChooseEndpointDone (Some (connEndpoint c)) None
           | inr err => OnBalancerChooseEndpointDone None (Some err)
           end).

(** The world after [Force] on the balancer's repeater. *)
Definition forced (w : World Env) : World Env :=
  set_bal (fun b => set_discoveryRepeater (repeaterForce <$> discoveryRepeater b) b) w.

(** The error [wrapCall] returns for an error of the operation. *)
Definition returned (ctx : Ctx) (e : error) : error :=
  if UseWrapping ctx then WithStackTrace e else e.

(** The events of the first loop of [applyDiscoveredEndpoints]. *)
Definition allowEvents (ctx : Ctx) (conns : list Conn) : list Event :=
  flat_map (fun c => [EvPoolAllow ctx c; EvTouch c]) conns.

(** The subscribers' calls on the store, in the order of registration. *)
Definition notifyAll (ctx : Ctx) (infos : list Endpoint) (subs : list nat) (s : Store Env)
  : Store Env :=
  foldl (fun s sub => subscriber sub ctx infos s) s subs.

End Derived.

(** ** The unary call *)

(** [conn.Conn.Invoke(ctx, method, args, reply, opts...)] on a pooled
    connection: the RPC itself. The request, the reply target and the call
    options are opaque to the balancer; the method names the call. *)
Class ConnCalls (Env : Type) := {
  connInvoke : string -> Ctx -> Conn -> Store Env -> option error * Store Env;
}.

Section Calls.

Context {Env : Type} `{Sel : Selector} `{Ext : Externals Env}
        `{Calls : ConnCalls Env}.

(** [func (b *Balancer) Invoke(ctx, method, args, reply, opts...) error] *)
Definition Invoke (ctx : Ctx) (method : string) : M Env (option error) :=
  wrapCall ctx (fun ctx cc => connInvoke method ctx cc).

End Calls.

(** ** More notions the properties are stated with *)

Section Derived2.

Context {Env : Type} `{Sel : Selector} `{Ext : Externals Env}.

(** The balancer [New] starts from: [b = &Balancer{...}] and the
    configuration it reads. *)
Definition initialBalancer (cfg : Config Env) : Balancer Env :=
  {| driverConfig := cfg;
     balancerConfig := match BalancerCfg cfg with
                       | None => BalancerConfigZero
                       | Some config => config
                       end;
     discoveryRepeater := None;
     connectionsState := None;
     onDiscovery := [] |}.

(** The child context of an attempt and the target it dials. *)
Definition childContext (w : World Env) (ctx : Ctx) : Ctx :=
  if 0 <? DialTimeout (driverConfig (bal w))
  then WithTimeout ctx (DialTimeout (driverConfig (bal w)))
  else WithCancel ctx.

Definition dialTarget (w : World Env) : string :=
  ("dns:///" ++ Endpoint_ (driverConfig (bal w)))%string.

(** The state [applyDiscoveredEndpoints] builds. *)
Definition discoveredState (w : World Env) (endpoints : list Endpoint) (localDC : string)
  : ConnectionsState :=
  newConnectionsState (map poolGet endpoints) (IsPreferConn (balancerConfig (bal w)))
    {| SelfLocation := localDC |} (AllowFalback (balancerConfig (bal w))).

(** The world after [applyDiscoveredEndpoints] and the events of it. *)
Definition applied (ctx : Ctx) (endpoints : list Endpoint) (localDC : string) (w : World Env)
  : World Env :=
  set_store (notifyAll ctx endpoints (onDiscovery (bal w)))
    (set_bal (set_connectionsState (Some (discoveredState w endpoints localDC)))
       (set_store (allowAll (map poolGet endpoints)) w)).

Definition applyEvents (ctx : Ctx) (endpoints : list Endpoint) (subs : list nat) : list Event :=
  map EvPoolGet endpoints
  ++ allowEvents ctx (map poolGet endpoints)
  ++ [EvLock; EvPublish]
  ++ map (fun sub => EvNotify sub ctx endpoints) subs
  ++ [EvUnlock].

(** The addresses of a list of endpoints. *)
Definition addresses (endpoints : list Endpoint) : list string := map Address endpoints.

Definition connAddresses (conns : list Conn) : list string :=
  map (fun c => Address (connEndpoint c)) conns.


(** Kinds of events. *)
Definition isApplyEvent (e : Event) : bool :=
  match e with
  | EvPoolGet _ | EvPoolAllow _ _ | EvTouch _ | EvLock | EvPublish
  | EvNotify _ _ _ | EvUnlock => true
  | _ => false
  end.


Definition isSelectionEvent (e : Event) : bool :=
  match e with
  | EvTrace _ | EvRLock | EvRead | EvRUnlock | EvSelect _ | EvForce => true
  | _ => false
  end.

Definition isOperationEvent (e : Event) : bool :=
  match e with
  | EvOperation _ _ => true
  | _ => false
  end.

Definition isMetaEvent (e : Event) : bool :=
  match e with
  | EvMeta _ => true
  | _ => false
  end.

Definition isPoolCallEvent (e : Event) : bool :=
  match e with
  | EvPoolBan _ _ _ | EvPoolAllow _ _ => true
  | _ => false
  end.

(** The store after the deferred function of [wrapCall]. *)
Definition afterReport (b : Balancer Env) (cc : Conn) (err : option error) (s : Store Env)
  : Store Env :=
  match err with
  | None => if decide (GetState s cc = Banned) then poolAllow cc s else s
  | Some e =>
      if MustPessimizeEndpoint e (ExcludeGRPCCodesForPessimization (driverConfig b))
      then poolBan cc e s else s
  end.


(** A repeater that can still run its task. *)
Definition running (r : option Repeater) : bool :=
  match r with
  | Some r => negb (repStopped r)
  | None => false
  end.

End Derived2.

(** ** The connections state of the specification *)

Module SpecSelector.

(** Modelled from the spec: the ConnectionsState snapshot and its selection
    (file connections_state.go of the package) are not among the sources.
    The specification: the snapshot holds "the full list of Connections
    partitioned into a preferred tier (matching the caller's detected
    location, or all connections if locality detection is disabled/unknown)
    and a fallback tier (everything else); the caller's detected location
    string; a flag permitting fallback-tier selection when the preferred
    tier is exhausted; and the preferred-tier size". A snapshot "built for
    single-connection mode" is told apart by the arguments [New] builds it
    with there, and only there by construction: one connection, no
    preference function, an empty [Info], no fallback. *)
Record connectionsState := {
  all : list Conn;
  prefer : list Conn;
  fallback : list Conn;
  selfLocation : string;
  allowFallback : bool;
  preferredCount : Z;
  singleConnMode : bool;
}.

Definition builtForSingleConn (conns : list Conn) (preferFunc : option PreferConnFunc)
    (info : Info) (allowFallback : bool) : bool :=
  match conns, preferFunc with
  | [_], None => negb allowFallback && bool_decide (SelfLocation info = "")
  | _, _ => false
  end.

Definition new (conns : list Conn) (preferFunc : option PreferConnFunc)
    (info : Info) (allowFallback : bool) : connectionsState :=
  let isPrefer := match preferFunc with
                  | Some f => f info
                  | None => fun _ => true
                  end in
  let prefer := List.filter isPrefer conns in
  {| all := conns;
     prefer := prefer;
     fallback := List.filter (fun c => negb (isPrefer c)) conns;
     selfLocation := SelfLocation info;
     allowFallback := allowFallback;
     preferredCount := Z.of_nat (length prefer);
     singleConnMode := builtForSingleConn conns preferFunc info allowFallback |}.

(** Modelled from the spec: the search of one tier, "skipping Banned
    connections; each skip increments failedAttempts". The tie-break among
    Allowed candidates "is an implementation choice"; the model takes the
    first of the tier. *)
Fixpoint searchTier (state : Conn -> ConnState) (tier : list Conn) : option Conn * Z :=
  match tier with
  | [] => (None, 0)
  | c :: rest =>
      match state c with
      | Allowed => (Some c, 0)
      | Banned => let r := searchTier state rest in (fst r, 1 + snd r)
      end
  end.

(** Modelled from the spec, section 4.2: the special case of
    single-connection mode, else the preferred tier, else the fallback tier
    if permitted, else no connection and the total skip count. *)
Definition getConnection (s : connectionsState) (ctx : Ctx) (state : Conn -> ConnState)
  : option Conn * Z :=
  if singleConnMode s then (head (all s), 0)
  else
    let p := searchTier state (prefer s) in
    match fst p with
    | Some c => p
    | None =>
        if allowFallback s then
          let f := searchTier state (fallback s) in
          (fst f, snd p + snd f)
        else (None, snd p)
    end.

Definition selector : Selector := {|
  ConnectionsState := connectionsState;
  newConnectionsState := new;
  PreferredCount := preferredCount;
  GetConnection := getConnection;
|}.

End SpecSelector.

(** ** A small cluster to run the model on *)

Module Scenario.

#[local] Existing Instance SpecSelector.selector.

(** The environment: the endpoints the discovery service reports, and the
    failure (if any) the discovery client meets when dialling. *)
Record Cluster := {
  reported : list Endpoint;
  dialFailure : option error;
}.

(** Modelled from the spec: an error is pessimizable when the gRPC code of
    its cause is in "the set of RPC failure codes that trigger
    pessimization". *)
Fixpoint mustPessimize (err : error) (codes : list Z) : bool :=
  match err with
  | TransportError code _ => bool_decide (code ∈ codes)
  | Errorf _ e _ | Wrap e | WithStackTrace e | Retryable e => mustPessimize e codes
  | _ => false
  end.

Definition externals : Externals Cluster := {|
  dialContext := fun _ _ s => (dialFailure (env s), s);
  clientDiscover := fun _ s => ((reported (env s), None), s);
  clientClose := fun _ s => s;
  detectLocalDC := fun _ endpoints s =>
    ((default "" (Location <$> head endpoints), None), s);
  subscriber := fun _ _ _ s => s;
  MustPessimizeEndpoint := mustPessimize;
  UseWrapping := fun _ => true;
|}.

(** One attempt, and one more when the error was marked retryable. *)
Fixpoint hasRetryable (err : error) : bool :=
  match err with
  | Retryable _ => true
  | Errorf _ e _ | Wrap e | WithStackTrace e => hasRetryable e
  | _ => false
  end.

#[local] Existing Instance externals.

Definition retryOnce : RetryPolicy Cluster := {|
  Retry := fun ctx op _ =>
    bind (op ctx) (fun err =>
      match err with
      | Some e => if hasRetryable e then op ctx else ret (Some e)
      | None => ret None
      end);
|}.

Definition local1 : Endpoint :=
  {| Address := "a:2135"; Location := "dc1"; LoadFactor := 0; NodeID := 1 |}.
Definition local2 : Endpoint :=
  {| Address := "b:2135"; Location := "dc1"; LoadFactor := 0; NodeID := 2 |}.
Definition remote : Endpoint :=
  {| Address := "c:2135"; Location := "dc2"; LoadFactor := 0; NodeID := 3 |}.

Definition cluster : Cluster :=
  {| reported := [local1; local2; remote]; dialFailure := None |}.

(** The preference of the caller's own location. *)
Definition preferLocal : PreferConnFunc :=
  fun info c => bool_decide (Location (connEndpoint c) = SelfLocation info).

Definition balancerCfg : BalancerConfig :=
  {| IsPreferConn := Some preferLocal; AllowFalback := true; SingleConn := false;
     DetectlocalDC := true |}.

(** Call metadata: a value on the context; it fails on a context that
    carries the key "no-credentials". *)
Definition metaContext (ctx : Ctx) (s : Store Cluster) : (Ctx * option error) * Store Cluster :=
  match ctx with
  | WithValue _ "no-credentials" => ((ctx, Some (TransportError 16 "unauthenticated")), s)
  | _ => ((WithValue ctx "meta", None), s)
  end.

Definition config (bc : BalancerConfig) : Config Cluster :=
  {| Endpoint_ := "ydb.example:2135";
     DialTimeout := 5;
     BalancerCfg := Some bc;
     MetaContext := metaContext;
     ExcludeGRPCCodesForPessimization := [4; 14] |}.

Definition store0 : Store Cluster :=
  {| health := ∅; lastSeen := ∅; clock := 100; done := fun _ => None; env := cluster |}.

Definition ctx0 : Ctx := Background 0.

(** The connections of the three nodes. *)
Definition connA : Conn := poolGet local1.
Definition connB : Conn := poolGet local2.
Definition connC : Conn := poolGet remote.

(** The snapshot of the three nodes seen from dc1. *)
Definition snapshot : SpecSelector.connectionsState :=
  SpecSelector.new [connA; connB; connC] (Some preferLocal) {| SelfLocation := "dc1" |} true.

(** A ready balancer over that snapshot, with periodic refresh. *)
Definition ready (s : Store Cluster) : World Cluster :=
  {| store := s;
     bal := {| driverConfig := config balancerCfg;
               balancerConfig := balancerCfg;
               discoveryRepeater := Some (repeaterNew 60);
               connectionsState := Some snapshot;
               onDiscovery := [7%nat; 8%nat] |} |}.

(** Both local connections banned. *)
Definition localsBanned : Store Cluster :=
  poolBan connB (TransportError 14 "unavailable")
    (poolBan connA (TransportError 14 "unavailable") store0).

(** Only the first local connection banned. *)
Definition oneBanned : Store Cluster :=
  poolBan connA (TransportError 14 "unavailable") store0.

(** Operations: one that succeeds, one that fails with UNAVAILABLE, one
    that fails with a code outside the configured set, and one that
    succeeds on a connection that got banned meanwhile. *)
Definition opOk : Operation Cluster := fun _ _ s => (None, s).
Definition opUnavailable : Operation Cluster :=
  fun _ _ s => (Some (TransportError 14 "unavailable"), s).
Definition opNotFound : Operation Cluster :=
  fun _ _ s => (Some (TransportError 5 "not found"), s).
Definition opOkBanned : Operation Cluster :=
  fun _ cc s => (None, poolBan cc (TransportError 14 "unavailable") s).

(** Single-connection mode, and the store in which the one connection of
    that mode is Banned. *)
Definition singleCfg : BalancerConfig :=
  {| IsPreferConn := None; AllowFalback := false; SingleConn := true;
     DetectlocalDC := false |}.

Definition connSingle : Conn := poolGet (endpointNew "ydb.example:2135").

Definition singleBanned : Store Cluster :=
  poolBan connSingle (TransportError 14 "unavailable") store0.

(** The events of [getConn] when it selects the first local connection
    and forces nothing. *)
Definition chooseA : list Event :=
  [EvTrace OnBalancerChooseEndpoint; EvRLock; EvRead; EvRUnlock; EvSelect ctx0;
   EvTrace (OnBalancerChooseEndpointDone (Some local1) None)].

(** A context without credentials, and a balancer for which the failure
    of the metadata is a configured code. *)
Definition noCredentials : Ctx := WithValue ctx0 "no-credentials".

Definition chooseA' : list Event :=
  [EvTrace OnBalancerChooseEndpoint; EvRLock; EvRead; EvRUnlock; EvSelect noCredentials;
   EvTrace (OnBalancerChooseEndpointDone (Some local1) None)].

Definition unauthenticatedCfg : Config Cluster :=
  {| Endpoint_ := "ydb.example:2135";
     DialTimeout := 5;
     BalancerCfg := Some balancerCfg;
     MetaContext := metaContext;
     ExcludeGRPCCodesForPessimization := [16] |}.

Definition readyUnauthenticated : World Cluster :=
  {| store := store0;
     bal := {| driverConfig := unauthenticatedCfg;
               balancerConfig := balancerCfg;
               discoveryRepeater := None;
               connectionsState := Some snapshot;
               onDiscovery := [] |} |}.

(** The store in which dialling the discovery client fails with [err]. *)
Definition dialFails (err : error) (s : Store Cluster) : Store Cluster :=
  {| health := health s; lastSeen := lastSeen s; clock := clock s; done := done s;
     env := {| reported := reported (env s); dialFailure := Some err |} |}.

(** The child context of a discovery attempt on [ctx0]. *)
Definition child0 : Ctx := WithTimeout ctx0 5.

End Scenario.

(** ** Calls on the small cluster *)

Module ScenarioCalls.

(** The node answers every method but "Missing", for which it reports
    NOT_FOUND. *)
Definition calls : ConnCalls Scenario.Cluster := {|
  connInvoke := fun method _ _ s =>
    if decide (method = "Missing")
    then (Some (TransportError 5 "not found"), s)
    else (None, s);
|}.

End ScenarioCalls.

(** * Properties *)

(** ** Integers and errors *)

Lemma wrap64_small z : - 2 ^ 63 <= z < 2 ^ 63 -> wrap64 z = z.
Proof.
  intros Hz. unfold wrap64.
  rewrite Z.mod_small by lia. lia.
Qed.

Lemma errorsIs_refl e : errorsIs e e = true.
Proof. destruct e; simpl; case_decide; congruence. Qed.

Lemma errorsIs_WithStackTrace e t : errorsIs e t = true -> errorsIs (WithStackTrace e) t = true.
Proof. intros H. simpl. case_decide; [reflexivity | exact H]. Qed.

(** ** The pool *)

Section PoolFacts.

Context {Env : Type}.
Implicit Types (s : Store Env) (c : Conn).

Lemma GetState_poolAllow s c : GetState (poolAllow c s) c = Allowed.
Proof. unfold GetState, poolAllow. simpl. by rewrite lookup_insert_eq. Qed.

Lemma GetState_poolBan s c cause : GetState (poolBan c cause s) c = Banned.
Proof. unfold GetState, poolBan. simpl. by rewrite lookup_insert_eq. Qed.

Lemma GetState_Touch s c c' : GetState (Touch c s) c' = GetState s c'.
Proof. reflexivity. Qed.

Lemma GetState_poolAllow_other s c c' :
  GetState s c' = Allowed -> GetState (poolAllow c s) c' = Allowed.
Proof.
  unfold GetState, poolAllow. simpl. intros H.
  destruct (decide (Address (connEndpoint c) = Address (connEndpoint c'))) as [->|Hne].
  - by rewrite lookup_insert_eq.
  - by rewrite lookup_insert_ne.
Qed.

Lemma lastSeen_Touch s c :
  lastSeen (Touch c s) !! Address (connEndpoint c) = Some (clock s).
Proof. unfold Touch. simpl. by rewrite lookup_insert_eq. Qed.

Lemma clock_Touch_poolAllow s c : clock (Touch c (poolAllow c s)) = clock s.
Proof. reflexivity. Qed.

Lemma allowAll_clock conns s : clock (allowAll conns s) = clock s.
Proof.
  revert s. induction conns as [|c conns IH]; intros s; [reflexivity|].
  simpl. by rewrite IH.
Qed.

Lemma allowAll_done conns s : done (allowAll conns s) = done s.
Proof.
  revert s. induction conns as [|c conns IH]; intros s; [reflexivity|].
  simpl. by rewrite IH.
Qed.

Lemma allowAll_env conns s : env (allowAll conns s) = env s.
Proof.
  revert s. induction conns as [|c conns IH]; intros s; [reflexivity|].
  simpl. by rewrite IH.
Qed.

Lemma allowAll_keeps_Allowed conns s c :
  GetState s c = Allowed -> GetState (allowAll conns s) c = Allowed.
Proof.
  revert s. induction conns as [|c0 conns IH]; intros s H; [exact H|].
  simpl. apply IH. rewrite GetState_Touch. by apply GetState_poolAllow_other.
Qed.

Lemma allowAll_keeps_lastSeen conns s a t :
  lastSeen s !! a = Some t -> t = clock s ->
  lastSeen (allowAll conns s) !! a = Some t.
Proof.
  revert s. induction conns as [|c0 conns IH]; intros s H Ht; [exact H|].
  simpl. apply IH; [|by rewrite clock_Touch_poolAllow].
  unfold Touch, poolAllow. simpl.
  destruct (decide (Address (connEndpoint c0) = a)) as [->|Hne].
  - rewrite lookup_insert_eq. by subst.
  - by rewrite lookup_insert_ne.
Qed.

(** After the loop every connection of the list is Allowed, whatever it
    was before, and its endpoint carries the current time. *)
Lemma allowAll_spec conns s c :
  c ∈ conns ->
  GetState (allowAll conns s) c = Allowed /\
  lastSeen (allowAll conns s) !! Address (connEndpoint c) = Some (clock s).
Proof.
  revert s. induction conns as [|c0 conns IH]; intros s Hin.
  - by apply elem_of_nil in Hin.
  - simpl. apply elem_of_cons in Hin as [->|Hin].
    + split.
      * apply allowAll_keeps_Allowed. exact (GetState_poolAllow s _).
      * apply allowAll_keeps_lastSeen; [|reflexivity].
        exact (lastSeen_Touch (poolAllow _ s) _).
    + destruct (IH (Touch c0 (poolAllow c0 s)) Hin) as [H1 H2].
      split; [exact H1|]. by rewrite H2, clock_Touch_poolAllow.
Qed.

End PoolFacts.

(** ** The selection of the specification *)

Lemma searchTier_count (state : Conn -> ConnState) (tier : list Conn) :
  0 <= snd (SpecSelector.searchTier state tier) <= Z.of_nat (length tier).
Proof.
  induction tier as [|c tier IH]; simpl; [lia|].
  destruct (state c); simpl; lia.
Qed.

Lemma searchTier_Allowed (state : Conn -> ConnState) (tier : list Conn) c :
  fst (SpecSelector.searchTier state tier) = Some c ->
  c ∈ tier /\ state c = Allowed.
Proof.
  induction tier as [|c0 tier IH]; simpl; [discriminate|].
  destruct (state c0) eqn:Hc0; simpl.
  - intros [= <-]. split; [by left | exact Hc0].
  - intros H. destruct (IH H) as [Hin Hst].
    split; [by right | exact Hst].
Qed.

(** The skip count of the selection is a count of connections of the two
    tiers: it is far inside Go's [int]. *)
Lemma getConnection_count (s : SpecSelector.connectionsState) ctx
    (state : Conn -> ConnState) :
  0 <= snd (SpecSelector.getConnection s ctx state)
    <= Z.of_nat (length (SpecSelector.prefer s))
       + Z.of_nat (length (SpecSelector.fallback s)).
Proof.
  unfold SpecSelector.getConnection.
  pose proof (searchTier_count state (SpecSelector.prefer s)) as Hp.
  pose proof (searchTier_count state (SpecSelector.fallback s)) as Hf.
  destruct (SpecSelector.singleConnMode s); simpl; [lia|].
  destruct (fst (SpecSelector.searchTier state (SpecSelector.prefer s))); [lia|].
  destruct (SpecSelector.allowFallback s); simpl; lia.
Qed.

(** Outside single-connection mode the selection never hands out a Banned
    connection. *)
Lemma getConnection_Allowed (s : SpecSelector.connectionsState) ctx
    (state : Conn -> ConnState) c :
  SpecSelector.singleConnMode s = false ->
  fst (SpecSelector.getConnection s ctx state) = Some c ->
  state c = Allowed.
Proof.
  unfold SpecSelector.getConnection. intros -> H.
  destruct (fst (SpecSelector.searchTier state (SpecSelector.prefer s))) as [c0|] eqn:Hp.
  - rewrite Hp in H. injection H as ->. by apply searchTier_Allowed in Hp as [_ ?].
  - destruct (SpecSelector.allowFallback s); simpl in H; [|discriminate].
    by apply searchTier_Allowed in H as [_ ?].
Qed.

(** ** Selection and the forced rediscovery *)

Section GetConn.

Context {Env : Type} `{Sel : Selector} `{Ext : Externals Env}
        `{Rty : !RetryPolicy Env}.

Implicit Types (w : World Env) (ctx : Ctx) (state : ConnectionsState).

(** [forceIfManyFailed] calls [Force] exactly when its test holds. *)
Lemma forceIfManyFailed_run state failedCount w :
  forceIfManyFailed state failedCount w =
    if (PreferredCount state <? wrap64 (failedCount * 2))
       && bool_decide (discoveryRepeater (bal w) <> None)
    then Some (tt, forced w, [EvForce])
    else Some (tt, w, []).
Proof.
  unfold forceIfManyFailed, bind, gets, emit, modify, ret, forced, set_bal. simpl.
  destruct (PreferredCount state <? wrap64 (failedCount * 2)); simpl.
  - destruct (discoveryRepeater (bal w)) as [r|]; reflexivity.
  - reflexivity.
Qed.

(** [getConnFrom]: selection on the given state against the pool's
    health, then the deferred test on the same state, then the trace. *)
Lemma getConnFrom_run state ctx w :
  let r := GetConnection state ctx (GetState (store w)) in
  getConnFrom state ctx w =
    if (PreferredCount state <? wrap64 (snd r * 2))
       && bool_decide (discoveryRepeater (bal w) <> None)
    then Some (selected r, forced w, [EvSelect ctx; EvForce; chooseDone (selected r)])
    else Some (selected r, w, [EvSelect ctx; chooseDone (selected r)]).
Proof.
  intros r. unfold getConnFrom, bind, emit, gets, ret. simpl.
  fold r. rewrite forceIfManyFailed_run.
  destruct ((PreferredCount state <? wrap64 (snd r * 2))
            && bool_decide (discoveryRepeater (bal w) <> None)); reflexivity.
Qed.

(** [getConn] on a live context and a published state. *)
Lemma getConn_live ctx w state :
  ctxErr (store w) ctx = None ->
  connectionsState (bal w) = Some state ->
  getConn ctx w =
    match getConnFrom state ctx w with
    | Some (res, w', evs) =>
        Some (res, w', [EvTrace OnBalancerChooseEndpoint; EvRLock; EvRead; EvRUnlock] ++ evs)
    | None => None
    end.
Proof.
  intros Hctx Hst.
  unfold getConn, connections, bind, emit, gets, ret. simpl.
  rewrite Hctx. simpl. rewrite Hst. simpl.
  destruct (getConnFrom state ctx w) as [[[res w'] evs]|]; reflexivity.
Qed.

(** [getConn] on a context that is done. *)
Lemma getConn_done ctx w k :
  ctxErr (store w) ctx = Some k ->
  getConn ctx w =
    Some (inr (WithStackTrace (ContextError k)), w,
          [EvTrace OnBalancerChooseEndpoint;
           EvTrace (OnBalancerChooseEndpointDone None
                      (Some (WithStackTrace (ContextError k))))]).
Proof.
  intros Hctx. unfold getConn, bind, emit, gets, ret. simpl.
  rewrite Hctx. reflexivity.
Qed.

(** [getConn] never panics once a state is published. *)
Lemma getConn_total ctx w state :
  connectionsState (bal w) = Some state ->
  exists res w' evs,
    getConn ctx w = Some (res, w', evs) /\
    store w' = store w /\
    connectionsState (bal w') = connectionsState (bal w) /\
    onDiscovery (bal w') = onDiscovery (bal w) /\
    driverConfig (bal w') = driverConfig (bal w) /\
    balancerConfig (bal w') = balancerConfig (bal w) /\
    discoveryRepeater (bal w') =
      (if bool_decide (EvForce ∈ evs) then repeaterForce <$> discoveryRepeater (bal w)
       else discoveryRepeater (bal w)) /\
    Forall (fun e => isDiscoveryEvent e = false) evs.
Proof.
  intros Hst. destruct (ctxErr (store w) ctx) as [k|] eqn:Hctx.
  - rewrite (getConn_done _ _ _ Hctx). do 3 eexists. split; [reflexivity|].
    repeat split; try reflexivity. repeat constructor.
  - rewrite (getConn_live _ _ _ Hctx Hst), getConnFrom_run.
    destruct (_ && _); do 3 eexists; (split; [reflexivity|]);
      repeat split; try reflexivity;
      unfold chooseDone; repeat constructor; by destruct (selected _).
Qed.

(** C1. For a call to [getConn] that reaches selection, [Force] is called
    on the repeater if and only if twice the number of Banned connections
    skipped by the selection strictly exceeds the preferred count of the
    state the call holds and the balancer has a repeater; at exactly half
    there is no forced run. The count is a count of connections, so its
    double is within Go's [int]. *)
Theorem getConn_forces_rediscovery_iff ctx w state c failedCount :
  ctxErr (store w) ctx = None ->
  connectionsState (bal w) = Some state ->
  GetConnection state ctx (GetState (store w)) = (c, failedCount) ->
  0 <= failedCount < 2 ^ 62 ->
  exists res w' evs,
    getConn ctx w = Some (res, w', evs) /\
    (EvForce ∈ evs <->
       PreferredCount state < failedCount * 2 /\ discoveryRepeater (bal w) <> None) /\
    (failedCount * 2 = PreferredCount state -> EvForce ∉ evs) /\
    discoveryRepeater (bal w') =
      (if bool_decide (EvForce ∈ evs) then repeaterForce <$> discoveryRepeater (bal w)
       else discoveryRepeater (bal w)).
Proof.
  intros Hctx Hst Hsel Hrange.
  rewrite (getConn_live _ _ _ Hctx Hst), getConnFrom_run, Hsel. simpl snd.
  rewrite wrap64_small by lia.
  assert (Hno : EvForce ∉ [EvTrace OnBalancerChooseEndpoint; EvRLock; EvRead; EvRUnlock]
                   ++ [EvSelect ctx; chooseDone (selected (c, failedCount))]).
  { simpl. rewrite !elem_of_cons, elem_of_nil. unfold chooseDone.
    intros [?|[?|[?|[?|[?|[?|[]]]]]]]; discriminate. }
  assert (Hyes : EvForce ∈ [EvTrace OnBalancerChooseEndpoint; EvRLock; EvRead; EvRUnlock]
                   ++ [EvSelect ctx; EvForce; chooseDone (selected (c, failedCount))]).
  { simpl. rewrite !elem_of_cons. auto 10. }
  destruct (PreferredCount state <? failedCount * 2) eqn:Hlt; simpl andb.
  - apply Z.ltb_lt in Hlt.
    destruct (bool_decide (discoveryRepeater (bal w) <> None)) eqn:Hrep.
    + apply bool_decide_eq_true in Hrep.
      do 3 eexists. split; [reflexivity|]. split; [|split].
      * split; [intros _; split; [lia|exact Hrep] | intros _; exact Hyes].
      * intros Heq. lia.
      * by rewrite bool_decide_true by exact Hyes.
    + apply bool_decide_eq_false in Hrep.
      do 3 eexists. split; [reflexivity|]. split; [|split].
      * split; [intros H; by destruct Hno | intros [_ H]; by destruct Hrep].
      * intros _. exact Hno.
      * by rewrite bool_decide_false by exact Hno.
  - apply Z.ltb_ge in Hlt.
    do 3 eexists. split; [reflexivity|]. split; [|split].
    + split; [intros H; by destruct Hno | intros [H _]; lia].
    + intros _. exact Hno.
    + by rewrite bool_decide_false by exact Hno.
Qed.

(** C5. A call to [getConn] on a context that is already done returns
    that context's error (under a stack trace) at once: no lock is taken,
    no state is read, no selection is made, nothing changes. When the
    selection over the current state yields no connection, the error wraps
    [ErrNoEndpoints] and carries the number of Banned connections the
    search skipped. *)
Theorem getConn_errors ctx w :
  (forall k,
     ctxErr (store w) ctx = Some k ->
     exists err,
       getConn ctx w =
         Some (inr err, w,
               [EvTrace OnBalancerChooseEndpoint;
                EvTrace (OnBalancerChooseEndpointDone None (Some err))]) /\
       err = WithStackTrace (ContextError k) /\
       errorsIs err (ContextError k) = true) /\
  (forall state failedCount,
     ctxErr (store w) ctx = None ->
     connectionsState (bal w) = Some state ->
     GetConnection state ctx (GetState (store w)) = (None, failedCount) ->
     exists err w' evs,
       getConn ctx w = Some (inr err, w', evs) /\
       err = WithStackTrace (Errorf noConnFormat ErrNoEndpoints failedCount) /\
       errorsIs err ErrNoEndpoints = true /\
       errorAttempts err = Some failedCount).
Proof.
  split.
  - intros k Hctx. eexists. split; [exact (getConn_done _ _ _ Hctx)|].
    split; [reflexivity|]. apply errorsIs_WithStackTrace, errorsIs_refl.
  - intros state failedCount Hctx Hst Hsel.
    rewrite (getConn_live _ _ _ Hctx Hst), getConnFrom_run, Hsel.
    unfold selected. simpl fst. simpl snd.
    destruct (_ && _); do 3 eexists; (split; [reflexivity|]);
      (split; [reflexivity|]); split; reflexivity.
Qed.

(** C9. Within one call the state is read once, under the read lock
    ([connections]); the rest of the call ([getConnFrom]: the selection and
    the test for a forced rediscovery) runs on that captured state and
    neither reads nor writes [b.connectionsState], so whatever a
    concurrent discovery publishes after the read, the call gives the same
    result from the same state. *)
Theorem getConn_uses_one_snapshot ctx w state :
  ctxErr (store w) ctx = None ->
  connectionsState (bal w) = Some state ->
  connections w = Some (Some state, w, [EvRLock; EvRead; EvRUnlock]) /\
  exists res w' evs,
    getConnFrom state ctx w = Some (res, w', evs) /\
    getConn ctx w =
      Some (res, w',
            [EvTrace OnBalancerChooseEndpoint; EvRLock; EvRead; EvRUnlock] ++ evs) /\
    (EvRead ∉ evs) /\ (EvPublish ∉ evs) /\
    res = selected (GetConnection state ctx (GetState (store w))) /\
    forall published,
      getConnFrom state ctx (set_bal (set_connectionsState published) w) =
        Some (res, set_bal (set_connectionsState published) w', evs).
Proof.
  intros Hctx Hst. split.
  { unfold connections, bind, emit, gets, ret. simpl. by rewrite Hst. }
  rewrite (getConn_live _ _ _ Hctx Hst).
  assert (Hpub : forall published,
            getConnFrom state ctx (set_bal (set_connectionsState published) w) =
            match getConnFrom state ctx w with
            | Some (res, w', evs) =>
                Some (res, set_bal (set_connectionsState published) w', evs)
            | None => None
            end).
  { intros published. rewrite !getConnFrom_run. simpl.
    destruct (_ && _); reflexivity. }
  rewrite getConnFrom_run in *.
  destruct (_ && _); do 3 eexists; (split; [reflexivity|]);
    (split; [reflexivity|]); (split; [|split; [|split; [reflexivity|exact Hpub]]]);
    rewrite !elem_of_cons, elem_of_nil; unfold chooseDone;
    intuition discriminate.
Qed.

End GetConn.

(** ** Call dispatch and pessimization *)

Section WrapCall.

Context {Env : Type} `{Sel : Selector} `{Ext : Externals Env}
        `{Rty : !RetryPolicy Env}.

Implicit Types (w : World Env) (ctx : Ctx) (f : Operation Env) (s : Store Env).

Lemma returned_Is ctx e : errorsIs (returned ctx e) e = true.
Proof.
  unfold returned. destruct (UseWrapping ctx).
  - apply errorsIs_WithStackTrace, errorsIs_refl.
  - apply errorsIs_refl.
Qed.

(** [wrapCall] when no connection could be obtained: the error of
    [getConn], and nothing else happens. *)
Lemma wrapCall_no_conn ctx f w err w1 evs1 :
  getConn ctx w = Some (inr err, w1, evs1) ->
  wrapCall ctx f w = Some (Some (WithStackTrace err), w1, evs1).
Proof.
  intros Hget. unfold wrapCall, bind. rewrite Hget. simpl.
  by rewrite app_nil_r.
Qed.

(** C2. When the wrapped operation fails, the caller gets the operation's
    error, as it is or under a stack trace, and the connection is marked
    Banned in the pool exactly when that error is classified as
    pessimizable for the configured codes; otherwise the pool is as the
    operation left it. *)
Theorem wrapCall_failure ctx f w cc w1 evs1 ctx' s2 e s3 :
  getConn ctx w = Some (inl cc, w1, evs1) ->
  MetaContext (driverConfig (bal w1)) ctx (store w1) = ((ctx', None), s2) ->
  f ctx' cc s2 = (Some e, s3) ->
  exists w' evs,
    wrapCall ctx f w = Some (Some (returned ctx' e), w', evs) /\
    errorsIs (returned ctx' e) e = true /\
    bal w' = bal w1 /\
    (MustPessimizeEndpoint (returned ctx' e)
       (ExcludeGRPCCodesForPessimization (driverConfig (bal w1))) = true ->
     store w' = poolBan cc (returned ctx' e) s3 /\
     GetState (store w') cc = Banned /\
     evs = evs1 ++ [EvMeta ctx; EvOperation ctx' cc; EvPoolBan ctx' cc (returned ctx' e)]) /\
    (MustPessimizeEndpoint (returned ctx' e)
       (ExcludeGRPCCodesForPessimization (driverConfig (bal w1))) = false ->
     store w' = s3 /\
     evs = evs1 ++ [EvMeta ctx; EvOperation ctx' cc]).
Proof.
  intros Hget Hmeta Hf.
  unfold wrapCall, bind. rewrite Hget. simpl.
  unfold call, emit, gets, ret. simpl. rewrite Hmeta. simpl. rewrite Hf. simpl.
  pose proof (returned_Is ctx' e) as HIs. unfold returned in *.
  destruct (UseWrapping ctx'); simpl;
    unfold reportOutcome, bind, gets, emit, exec, modify, ret; simpl;
    destruct (MustPessimizeEndpoint _ _) eqn:Hp; simpl;
    do 2 eexists; (split; [reflexivity|]); (split; [exact HIs|]);
    (split; [reflexivity|]); split; intros Hb; try discriminate;
    repeat split; try reflexivity; apply GetState_poolBan.
Qed.

(** C6. When the wrapped operation succeeds and the connection is Banned
    at that time, the balancer allows it again in the pool; when it is
    Allowed the pool is left as the operation left it. *)
Theorem wrapCall_success ctx f w cc w1 evs1 ctx' s2 s3 :
  getConn ctx w = Some (inl cc, w1, evs1) ->
  MetaContext (driverConfig (bal w1)) ctx (store w1) = ((ctx', None), s2) ->
  f ctx' cc s2 = (None, s3) ->
  exists w' evs,
    wrapCall ctx f w = Some (None, w', evs) /\
    bal w' = bal w1 /\
    (GetState s3 cc = Banned ->
     store w' = poolAllow cc s3 /\
     GetState (store w') cc = Allowed /\
     evs = evs1 ++ [EvMeta ctx; EvOperation ctx' cc; EvPoolAllow ctx' cc]) /\
    (GetState s3 cc = Allowed ->
     store w' = s3 /\
     evs = evs1 ++ [EvMeta ctx; EvOperation ctx' cc]).
Proof.
  intros Hget Hmeta Hf.
  unfold wrapCall, bind. rewrite Hget. simpl.
  unfold call, emit, gets, ret. simpl. rewrite Hmeta. simpl. rewrite Hf. simpl.
  unfold reportOutcome, bind, gets, emit, exec, modify, ret. simpl.
  destruct (decide (GetState s3 cc = Banned)) as [Hb|Hb]; simpl;
    do 2 eexists; (split; [reflexivity|]); (split; [reflexivity|]);
    split; intros Hs; try congruence.
  - split; [reflexivity|]. split; [apply GetState_poolAllow|reflexivity].
  - split; reflexivity.
Qed.

(** C10. When attaching the call metadata fails after a connection was
    selected, the caller gets that error under a stack trace, the
    operation is not invoked (any operation gives the same run), and the
    error still goes through the classification: if it is pessimizable the
    selected connection is marked Banned. *)
Theorem wrapCall_meta_failure ctx f w cc w1 evs1 ctx' e s2 :
  getConn ctx w = Some (inl cc, w1, evs1) ->
  MetaContext (driverConfig (bal w1)) ctx (store w1) = ((ctx', Some e), s2) ->
  exists w' evs,
    wrapCall ctx f w = Some (Some (WithStackTrace e), w', evs) /\
    (forall g, wrapCall ctx g w = wrapCall ctx f w) /\
    bal w' = bal w1 /\
    (MustPessimizeEndpoint (WithStackTrace e)
       (ExcludeGRPCCodesForPessimization (driverConfig (bal w1))) = true ->
     store w' = poolBan cc (WithStackTrace e) s2 /\
     GetState (store w') cc = Banned /\
     evs = evs1 ++ [EvMeta ctx; EvPoolBan ctx' cc (WithStackTrace e)]) /\
    (MustPessimizeEndpoint (WithStackTrace e)
       (ExcludeGRPCCodesForPessimization (driverConfig (bal w1))) = false ->
     store w' = s2 /\
     evs = evs1 ++ [EvMeta ctx]).
Proof.
  intros Hget Hmeta.
  unfold wrapCall, bind. rewrite Hget. simpl.
  unfold call, emit, gets, ret. simpl. rewrite Hmeta. simpl.
  unfold reportOutcome, bind, gets, emit, exec, modify, ret. simpl.
  destruct (MustPessimizeEndpoint (WithStackTrace e) _) eqn:Hp; simpl;
    do 2 eexists; (split; [reflexivity|]); (split; [intros g; reflexivity|]);
    (split; [reflexivity|]); split; intros Hb; try discriminate;
    repeat split; try reflexivity; apply GetState_poolBan.
Qed.

(** [wrapCall] never panics once a state is published; it leaves the
    balancer as [getConn] left it and runs no discovery. *)
Lemma wrapCall_total ctx f w state :
  connectionsState (bal w) = Some state ->
  exists r w' evs,
    wrapCall ctx f w = Some (r, w', evs) /\
    connectionsState (bal w') = connectionsState (bal w) /\
    onDiscovery (bal w') = onDiscovery (bal w) /\
    driverConfig (bal w') = driverConfig (bal w) /\
    balancerConfig (bal w') = balancerConfig (bal w) /\
    (discoveryRepeater (bal w) = None -> discoveryRepeater (bal w') = None) /\
    Forall (fun e => isDiscoveryEvent e = false) evs.
Proof.
  intros Hst.
  destruct (getConn_total ctx w state Hst)
    as (res & w1 & evs1 & Hget & Hs1 & Hc1 & Ho1 & Hd1 & Hb1 & Hr1 & Hev1).
  assert (Hrep : discoveryRepeater (bal w) = None -> discoveryRepeater (bal w1) = None).
  { intros Hn. rewrite Hr1, Hn. by destruct (bool_decide _). }
  destruct res as [cc|err].
  - unfold wrapCall, bind. rewrite Hget. simpl.
    unfold call, emit, gets, ret. simpl.
    destruct (MetaContext (driverConfig (bal w1)) ctx (store w1)) as [[ctx' merr] s2].
    simpl. destruct merr as [e|]; simpl.
    + unfold reportOutcome, bind, gets, emit, exec, modify, ret. simpl.
      destruct (MustPessimizeEndpoint _ _); simpl; do 3 eexists;
        (split; [reflexivity|]); repeat split; auto;
        rewrite Forall_app; split; auto; repeat constructor.
    + destruct (f ctx' cc s2) as [[e|] s3]; simpl.
      * destruct (UseWrapping ctx'); simpl;
          unfold reportOutcome, bind, gets, emit, exec, modify, ret; simpl;
          destruct (MustPessimizeEndpoint _ _); simpl; do 3 eexists;
          (split; [reflexivity|]); repeat split; auto;
          rewrite Forall_app; split; auto; repeat constructor.
      * unfold reportOutcome, bind, gets, emit, exec, modify, ret. simpl.
        destruct (decide (GetState s3 cc = Banned)); simpl; do 3 eexists;
          (split; [reflexivity|]); repeat split; auto;
          rewrite Forall_app; split; auto; repeat constructor.
  - rewrite (wrapCall_no_conn _ _ _ _ _ _ Hget). do 3 eexists.
    split; [reflexivity|]. repeat split; auto.
Qed.

End WrapCall.

(** ** Closing the balancer *)

Section Closing.

Context {Env : Type} `{Sel : Selector} `{Ext : Externals Env}
        `{Rty : !RetryPolicy Env}.

Implicit Types (w : World Env) (ctx : Ctx).

(** C8. [Close] stops the repeater when there is one and does nothing else:
    the store (and with it the pool's connections and their health), the
    published state, the subscribers and the configuration are as before.
    Without a repeater, or with a stopped one, the world does not change
    at all; closing again changes nothing; and a stopped repeater runs no
    discovery. *)
Theorem Close_only_stops_repeater ctx w :
  exists w',
    Close ctx w =
      Some (None, w',
            [EvTrace OnBalancerClose]
            ++ match discoveryRepeater (bal w) with Some _ => [EvStop] | None => [] end
            ++ [EvTrace (OnBalancerCloseDone None)]) /\
    store w' = store w /\
    connectionsState (bal w') = connectionsState (bal w) /\
    onDiscovery (bal w') = onDiscovery (bal w) /\
    driverConfig (bal w') = driverConfig (bal w) /\
    balancerConfig (bal w') = balancerConfig (bal w) /\
    discoveryRepeater (bal w') = repeaterStop <$> discoveryRepeater (bal w) /\
    (discoveryRepeater (bal w) = None -> w' = w) /\
    (forall r, discoveryRepeater (bal w) = Some r -> repStopped r = true -> w' = w) /\
    (forall ctx2, exists evs, Close ctx2 w' = Some (None, w', evs)) /\
    (forall ctx2, repeaterRun ctx2 w' = Some (tt, w', [])).
Proof.
  unfold Close, repeaterRun, bind, emit, gets, modify, ret. simpl.
  destruct w as [s b]. destruct b as [dc bc rep st subs]. simpl.
  destruct rep as [r|]; simpl.
  - eexists. split; [reflexivity|]. simpl. split_and!; try done.
    + intros r' Hr Hstopped. injection Hr as <-.
      destruct r as [i stopped n]. simpl in *. by subst.
    + intros _. eexists. reflexivity.
  - eexists. split; [reflexivity|]. simpl. split_and!; try done.
    intros _. eexists. reflexivity.
Qed.

End Closing.

(** ** Publishing the discovered endpoints *)

Section Discovery.

Context {Env : Type} `{Sel : Selector} `{Ext : Externals Env}
        `{Rty : !RetryPolicy Env}.

Implicit Types (w : World Env) (ctx : Ctx) (s : Store Env).

Lemma endpointsToConnections_run endpoints w :
  endpointsToConnections endpoints w =
    Some (map poolGet endpoints, w, map EvPoolGet endpoints).
Proof.
  induction endpoints as [|e es IH]; [reflexivity|].
  simpl. unfold bind, emit, ret in *. rewrite IH. simpl.
  by rewrite app_nil_r.
Qed.

Lemma forEach_allowAndTouch_run ctx conns w :
  forEach conns (allowAndTouch ctx) w =
    Some (tt, set_store (allowAll conns) w, allowEvents ctx conns).
Proof.
  revert w. induction conns as [|c conns IH]; intros w.
  - by destruct w.
  - simpl. unfold bind at 1.
    unfold allowAndTouch at 1, bind, emit, exec, modify. simpl.
    rewrite IH. reflexivity.
Qed.

Lemma forEach_notify_run ctx infos subs w :
  forEach subs (fun sub =>
      bind (emit (EvNotify sub ctx infos))
           (fun _ => exec (subscriber sub ctx infos))) w =
    Some (tt, set_store (notifyAll ctx infos subs) w,
          map (fun sub => EvNotify sub ctx infos) subs).
Proof.
  revert w. induction subs as [|sub subs IH]; intros w.
  - by destruct w.
  - simpl. unfold bind at 1. unfold bind at 1, emit at 1, exec at 1, modify at 1.
    simpl. rewrite IH. reflexivity.
Qed.

(** The whole of [applyDiscoveredEndpoints]: the world after and the events
    in order. *)
Lemma applyDiscoveredEndpoints_run ctx endpoints localDC w :
  let conns := map poolGet endpoints in
  let state := newConnectionsState conns (IsPreferConn (balancerConfig (bal w)))
                 {| SelfLocation := localDC |} (AllowFalback (balancerConfig (bal w))) in
  applyDiscoveredEndpoints ctx endpoints localDC w =
    Some (tt,
          set_store (notifyAll ctx endpoints (onDiscovery (bal w)))
            (set_bal (set_connectionsState (Some state))
               (set_store (allowAll conns) w)),
          map EvPoolGet endpoints
          ++ allowEvents ctx conns
          ++ [EvLock; EvPublish]
          ++ map (fun sub => EvNotify sub ctx endpoints) (onDiscovery (bal w))
          ++ [EvUnlock]).
Proof.
  intros conns state.
  unfold applyDiscoveredEndpoints. unfold bind at 1.
  rewrite endpointsToConnections_run. unfold bind at 1.
  rewrite forEach_allowAndTouch_run.
  unfold publish, bind, gets, emit, modify, ret. simpl.
  pose proof (forEach_notify_run ctx endpoints (onDiscovery (bal w))
                (set_bal (set_connectionsState (Some state))
                   (set_store (allowAll conns) w))) as Hn.
  unfold bind, emit, exec, modify in Hn. simpl in Hn.
  fold conns. fold state. rewrite Hn. reflexivity.
Qed.

(** A round whose collaborators all succeed ends in
    [applyDiscoveredEndpoints] on the child context. *)
Lemma discoverAndApply_success childCtx w endpoints s1 localDC s2 :
  clientDiscover childCtx (store w) = ((endpoints, None), s1) ->
  (if DetectlocalDC (balancerConfig (bal w))
   then detectLocalDC childCtx endpoints s1 = ((localDC, None), s2)
   else localDC = "" /\ s2 = s1) ->
  discoverAndApply childCtx w =
    match applyDiscoveredEndpoints childCtx endpoints localDC
            (set_store (fun _ => s2) w) with
    | Some (_, w', evs) =>
        Some ((endpoints, localDC, None), w',
              [EvDiscover childCtx]
              ++ (if DetectlocalDC (balancerConfig (bal w))
                  then [EvDetectLocalDC childCtx] else [])
              ++ evs)
    | None => None
    end.
Proof.
  intros Hdisc Hdet.
  unfold discoverAndApply, bind, gets, emit, call, ret. simpl.
  rewrite Hdisc. simpl.
  destruct (DetectlocalDC (balancerConfig (bal w))); simpl.
  - rewrite Hdet. simpl.
    destruct w as [s b]. simpl.
    destruct (applyDiscoveredEndpoints childCtx endpoints localDC _)
      as [[[u w'] evs]|]; [|reflexivity].
    simpl. by rewrite app_nil_r.
  - destruct Hdet as [-> ->]. destruct w as [s b]. simpl.
    destruct (applyDiscoveredEndpoints childCtx endpoints "" _)
      as [[[u w'] evs]|]; [|reflexivity].
    simpl. by rewrite app_nil_r.
Qed.

(** [applyDiscoveredEndpoints] on any arguments: every connection
    resolved from the list is allowed in the pool (whatever its health
    was) and its endpoint is touched, before the lock is taken; then,
    between [Lock] and [Unlock], the new state is published and every
    registered subscriber is called once, in order, with the list. *)
Lemma applyDiscoveredEndpoints_spec ctx endpoints localDC w :
  exists w' sLock,
    applyDiscoveredEndpoints ctx endpoints localDC w =
      Some (tt, w',
            map EvPoolGet endpoints
            ++ allowEvents ctx (map poolGet endpoints)
            ++ [EvLock; EvPublish]
            ++ map (fun sub => EvNotify sub ctx endpoints) (onDiscovery (bal w))
            ++ [EvUnlock]) /\
    sLock = allowAll (map poolGet endpoints) (store w) /\
    (forall e, e ∈ endpoints ->
       GetState sLock (poolGet e) = Allowed /\
       lastSeen sLock !! Address e = Some (clock (store w))) /\
    store w' = notifyAll ctx endpoints (onDiscovery (bal w)) sLock /\
    connectionsState (bal w') =
      Some (newConnectionsState (map poolGet endpoints)
              (IsPreferConn (balancerConfig (bal w)))
              {| SelfLocation := localDC |} (AllowFalback (balancerConfig (bal w)))) /\
    onDiscovery (bal w') = onDiscovery (bal w) /\
    discoveryRepeater (bal w') = discoveryRepeater (bal w).
Proof.
  do 2 eexists. split; [apply applyDiscoveredEndpoints_run|].
  split; [reflexivity|]. split; [|repeat split; reflexivity].
  intros e He.
  apply (allowAll_spec (map poolGet endpoints) (store w) (poolGet e)).
  apply list_elem_of_fmap. by exists e.
Qed.

End Discovery.

(** ** The discovery attempt *)

Section Attempt.

Context {Env : Type} `{Sel : Selector} `{Ext : Externals Env}
        `{Rty : !RetryPolicy Env}.

Implicit Types (w : World Env) (ctx : Ctx) (s : Store Env).

Lemma applyDiscoveredEndpoints_total ctx endpoints localDC w :
  exists w' evs, applyDiscoveredEndpoints ctx endpoints localDC w = Some (tt, w', evs).
Proof. do 2 eexists. apply applyDiscoveredEndpoints_run. Qed.

Ltac run_apply :=
  match goal with
  | |- context [applyDiscoveredEndpoints ?c ?e ?d ?w] =>
      let w2 := fresh "w2" in
      let evs2 := fresh "evs2" in
      let H := fresh "H" in
      destruct (applyDiscoveredEndpoints_total c e d w) as (w2 & evs2 & H);
      rewrite H; clear H
  end.

(** An attempt always comes back, and an error it comes back with is a
    collaborator's error under a stack trace. *)
Lemma discoverAndApply_total childCtx w :
  exists endpoints localDC r w' evs,
    discoverAndApply childCtx w = Some ((endpoints, localDC, r), w', evs) /\
    (forall e, r = Some e -> exists cause, e = WithStackTrace cause).
Proof.
  unfold discoverAndApply, bind, gets, emit, call, ret. simpl.
  destruct (clientDiscover childCtx (store w)) as [[endpoints err] s1]. simpl.
  destruct err as [e|]; simpl.
  { do 5 eexists. split; [reflexivity|]. intros e' [= <-]. by eexists. }
  destruct (DetectlocalDC (balancerConfig (bal w))); simpl.
  - destruct (detectLocalDC childCtx endpoints s1) as [[localDC err] s2]. simpl.
    destruct err as [e|]; simpl.
    + do 5 eexists. split; [reflexivity|]. intros e' [= <-]. by eexists.
    + run_apply. simpl. do 5 eexists. split; [reflexivity|]. intros e' [=].
  - run_apply. simpl. do 5 eexists. split; [reflexivity|]. intros e' [=].
Qed.

Lemma discoveryAttemptBody_total ctx w :
  exists endpoints localDC r w' evs,
    discoveryAttemptBody ctx w = Some ((endpoints, localDC, r), w', evs) /\
    (forall e, r = Some e -> exists cause, e = WithStackTrace cause).
Proof.
  unfold discoveryAttemptBody, discoveryClient, bind, gets, emit, call, exec, modify, ret.
  simpl.
  destruct (dialContext _ _ (store w)) as [[e|] s1]; simpl.
  { do 5 eexists. split; [reflexivity|]. intros e' [= <-]. by eexists. }
  match goal with
  | |- context [discoverAndApply ?c ?w1] =>
      destruct (discoverAndApply_total c w1)
        as (endpoints & localDC & r & w2 & evs2 & Hrun & Hcause);
      rewrite Hrun
  end.
  simpl. do 5 eexists. split; [reflexivity|]. exact Hcause.
Qed.

(** An error is not its own marking. *)
Lemma marking_changes_error (e : error) :
  e <> WithStackTrace (Retryable e) /\ e <> Retryable (WithStackTrace e).
Proof.
  induction e as [k|code msg|msg|fmt e IH n|e IH|e IH|e IH]; split; try discriminate.
  - intros [= Heq]. destruct IH as [_ IH]. exact (IH Heq).
  - intros [= Heq]. destruct IH as [IH _]. exact (IH Heq).
Qed.

(** C3. An attempt that fails returns its error marked retryable exactly
    when, as the attempt ends, the context it was called with is not done
    and the error is ([errors.Is]) a deadline-exceeded or cancellation
    error; any other error is returned as it is. Where the error arose is
    not tested: neither the child context nor its state occurs in the
    condition. *)
Theorem clusterDiscoveryAttempt_marks_retryable ctx w :
  exists endpoints localDC r w' evs,
    discoveryAttemptBody ctx w = Some ((endpoints, localDC, r), w', evs) /\
    clusterDiscoveryAttempt ctx w =
      Some (markRetryable (store w') ctx r, w',
            [EvTrace (OnBalancerUpdate (DetectlocalDC (balancerConfig (bal w))))]
            ++ evs
            ++ [EvTrace (OnBalancerUpdateDone endpoints localDC
                           (markRetryable (store w') ctx r))]) /\
    match r with
    | None => markRetryable (store w') ctx r = None
    | Some e =>
        (exists cause, e = WithStackTrace cause) /\
        (ctxErr (store w') ctx = None /\ Is e contextErrors = true ->
         markRetryable (store w') ctx r = Some (WithStackTrace (Retryable e))) /\
        (~ (ctxErr (store w') ctx = None /\ Is e contextErrors = true) ->
         markRetryable (store w') ctx r = Some e) /\
        (markRetryable (store w') ctx r = Some (WithStackTrace (Retryable e)) <->
         ctxErr (store w') ctx = None /\ Is e contextErrors = true)
    end.
Proof.
  destruct (discoveryAttemptBody_total ctx w)
    as (endpoints & localDC & r & w' & evs & Hbody & Hcause).
  exists endpoints, localDC, r, w', evs. split; [exact Hbody|]. split.
  - unfold clusterDiscoveryAttempt, bind. unfold gets at 1, emit at 1. simpl.
    rewrite Hbody. reflexivity.
  - destruct r as [e|]; [|reflexivity].
    split; [by apply Hcause|]. unfold markRetryable. split_and!.
    + intros [Hlive HIs]. by rewrite bool_decide_true, HIs.
    + intros Hnot. destruct (bool_decide _) eqn:Hlive; [|reflexivity].
      destruct (Is e contextErrors) eqn:HIs; [|reflexivity].
      apply bool_decide_eq_true in Hlive. by destruct Hnot.
    + destruct (marking_changes_error e) as [Hneq _].
      destruct (Is e contextErrors) eqn:HIs;
        destruct (bool_decide (ctxErr (store w') ctx = None)) eqn:Hlive;
        [apply bool_decide_eq_true in Hlive | apply bool_decide_eq_false in Hlive
        |apply bool_decide_eq_true in Hlive | apply bool_decide_eq_false in Hlive];
        cbn [andb]; split.
      * intros _. split; [exact Hlive | reflexivity].
      * intros _. reflexivity.
      * intros [= Heq]. exact (False_ind _ (Hneq Heq)).
      * intros [Hnone _]. exact (False_ind _ (Hlive Hnone)).
      * intros [= Heq]. exact (False_ind _ (Hneq Heq)).
      * intros [_ Hfalse]. discriminate Hfalse.
      * intros [= Heq]. exact (False_ind _ (Hneq Heq)).
      * intros [_ Hfalse]. discriminate Hfalse.
Qed.

End Attempt.

(** ** A balancer without a repeater *)

Section NoRepeater.

Context {Env : Type} `{Sel : Selector} `{Ext : Externals Env}
        `{Rty : !RetryPolicy Env}.

Implicit Types (w : World Env) (state : ConnectionsState).

(** Whatever is done with a balancer that has a state and no repeater, it
    keeps that state, gets no repeater, and runs no discovery. *)
Lemma perform_without_repeater (a : Action) w state :
  connectionsState (bal w) = Some state ->
  discoveryRepeater (bal w) = None ->
  exists w' evs,
    perform a w = Some (tt, w', evs) /\
    connectionsState (bal w') = Some state /\
    discoveryRepeater (bal w') = None /\
    Forall (fun e => isDiscoveryEvent e = false) evs.
Proof.
  intros Hst Hrep. destruct a as [ctx|ctx f|sub|ctx|ctx]; simpl.
  - destruct (getConn_total ctx w state Hst)
      as (res & w' & evs & Hget & _ & Hc & _ & _ & _ & Hr & Hev).
    unfold bind. rewrite Hget. simpl. do 2 eexists. split; [reflexivity|].
    split; [congruence|]. split.
    + rewrite Hr, Hrep. by destruct (bool_decide _).
    + by rewrite app_nil_r.
  - destruct (wrapCall_total ctx f w state Hst)
      as (r & w' & evs & Hrun & Hc & _ & _ & _ & Hr & Hev).
    unfold bind. rewrite Hrun. simpl. do 2 eexists. split; [reflexivity|].
    split; [congruence|]. split; [by apply Hr|]. by rewrite app_nil_r.
  - unfold OnUpdate, bind, emit, modify. simpl. do 2 eexists.
    split; [reflexivity|]. split; [exact Hst|]. split; [exact Hrep|].
    repeat constructor.
  - unfold Close, bind, emit, gets, modify, ret. simpl. rewrite Hrep. simpl.
    do 2 eexists. split; [reflexivity|]. split; [exact Hst|]. split; [exact Hrep|].
    repeat constructor.
  - unfold repeaterRun, bind, gets, ret. simpl. rewrite Hrep. simpl.
    do 2 eexists. split; [reflexivity|]. split; [exact Hst|]. split; [exact Hrep|].
    constructor.
Qed.

Lemma performAll_without_repeater (l : list Action) w state :
  connectionsState (bal w) = Some state ->
  discoveryRepeater (bal w) = None ->
  exists w' evs,
    performAll l w = Some (tt, w', evs) /\
    connectionsState (bal w') = Some state /\
    discoveryRepeater (bal w') = None /\
    Forall (fun e => isDiscoveryEvent e = false) evs.
Proof.
  revert w. induction l as [|a l IH]; intros w Hst Hrep.
  - do 2 eexists. split; [reflexivity|]. repeat split; auto.
  - destruct (perform_without_repeater a w state Hst Hrep)
      as (w1 & evs1 & Hrun1 & Hst1 & Hrep1 & Hev1).
    destruct (IH w1 Hst1 Hrep1) as (w2 & evs2 & Hrun2 & Hst2 & Hrep2 & Hev2).
    unfold performAll in *. simpl. unfold bind. rewrite Hrun1, Hrun2.
    do 2 eexists. split; [reflexivity|]. repeat split; auto.
    rewrite Forall_app. auto.
Qed.

End NoRepeater.

(** ** Single-connection mode *)

Section SingleConnection.

Context {Env : Type} `{Ext : Externals Env}.

#[local] Existing Instance SpecSelector.selector.

Context `{Rty : !RetryPolicy Env}.

(** A state built for single-connection mode hands out its connection
    whatever the health of that connection. *)
Lemma single_state_selects c ctx (health : Conn -> ConnState) :
  SpecSelector.getConnection
    (SpecSelector.new [c] None {| SelfLocation := "" |} false) ctx health = (Some c, 0).
Proof. reflexivity. Qed.

(** C7. In single-connection mode [New] dials nothing and discovers
    nothing, starts no repeater, and publishes a state holding exactly the
    connection of the configured endpoint. Selection on that state gives
    that connection whatever its health, so does [getConn] on a live
    context, and nothing that is later done with the balancer runs a
    discovery or changes the state. *)
Theorem single_connection_mode ctx (cfg : Config Env) dc s bc :
  BalancerCfg cfg = Some bc ->
  SingleConn bc = true ->
  exists b st,
    New ctx cfg dc s =
      Some (inl b, s,
            [EvTrace OnBalancerInit; EvPoolGet (endpointNew (Endpoint_ cfg));
             EvPublish; EvTrace (OnBalancerInitDone None)]) /\
    discoveryRepeater b = None /\
    connectionsState b = Some st /\
    SpecSelector.all st = [poolGet (endpointNew (Endpoint_ cfg))] /\
    (forall ctx' health,
       fst (GetConnection st ctx' health) = Some (poolGet (endpointNew (Endpoint_ cfg)))) /\
    (forall ctx' s',
       ctxErr s' ctx' = None ->
       exists w' evs,
         getConn ctx' {| store := s'; bal := b |} =
           Some (inl (poolGet (endpointNew (Endpoint_ cfg))), w', evs)) /\
    (forall l s',
       exists w' evs,
         performAll l {| store := s'; bal := b |} = Some (tt, w', evs) /\
         connectionsState (bal w') = Some st /\
         discoveryRepeater (bal w') = None /\
         Forall (fun e => isDiscoveryEvent e = false) evs).
Proof.
  intros Hcfg Hsingle.
  unfold New, initBalancer, bind, emit, gets, modify, ret. simpl.
  rewrite Hcfg. simpl. rewrite Hsingle. simpl.
  do 2 eexists. split; [reflexivity|]. simpl.
  split; [reflexivity|]. split; [reflexivity|]. split; [reflexivity|].
  split; [intros; reflexivity|]. split.
  - intros ctx' s' Hlive.
    erewrite getConn_live by (simpl; eauto).
    rewrite getConnFrom_run. simpl.
    do 2 eexists. reflexivity.
  - intros l s'.
    by apply (performAll_without_repeater (Sel := SpecSelector.selector)).
Qed.

End SingleConnection.

(** * The properties on the small cluster *)

Module Witness.

Import Scenario.

#[local] Existing Instance SpecSelector.selector.
#[local] Existing Instance externals.
#[local] Existing Instance retryOnce.

(** The scenario of the specification: three endpoints, two of them local;
    both local connections Banned; the call gets the remote connection and
    forces a rediscovery (2 * 2 > 2). *)
Lemma getConn_forces_rediscovery_witness :
  exists w' evs,
    getConn ctx0 (ready localsBanned) = Some (inl connC, w', evs) /\
    EvForce ∈ evs /\
    discoveryRepeater (bal w') = Some (repeaterForce (repeaterNew 60)).
Proof.
  destruct (getConn_forces_rediscovery_iff ctx0 (ready localsBanned) snapshot
              (Some connC) 2)
    as (res & w' & evs & Hrun & Hiff & _ & Hrep);
    [reflexivity | reflexivity | reflexivity | lia |].
  assert (Hin : EvForce ∈ evs).
  { apply Hiff. split; [reflexivity | discriminate]. }
  exists w', evs. split; [|split; [exact Hin|]].
  - rewrite Hrun. f_equal. f_equal. f_equal.
    assert (Hres : getConn ctx0 (ready localsBanned) =
                   Some (inl connC, forced (ready localsBanned),
                         [EvTrace OnBalancerChooseEndpoint; EvRLock; EvRead; EvRUnlock;
                          EvSelect ctx0; EvForce;
                          EvTrace (OnBalancerChooseEndpointDone (Some remote) None)]))
      by reflexivity.
    rewrite Hres in Hrun. congruence.
  - rewrite Hrep. by rewrite bool_decide_true by exact Hin.
Defined.

(** One of two local connections Banned: exactly half, no forced run. *)
Example getConn_half_banned_no_force :
  getConn ctx0 (ready oneBanned) =
    Some (inl connB, ready oneBanned,
          [EvTrace OnBalancerChooseEndpoint; EvRLock; EvRead; EvRUnlock;
           EvSelect ctx0;
           EvTrace (OnBalancerChooseEndpointDone (Some local2) None)]).
Proof. reflexivity. Qed.

(** A cancelled caller and an exhausted cluster (fallback forbidden). *)
Lemma getConn_errors_witness :
  getConn ctx0 (ready (cancelCtx ctx0 store0)) =
    Some (inr (WithStackTrace (ContextError CtxCanceled)),
          ready (cancelCtx ctx0 store0),
          [EvTrace OnBalancerChooseEndpoint;
           EvTrace (OnBalancerChooseEndpointDone None
                      (Some (WithStackTrace (ContextError CtxCanceled))))]).
Proof.
  destruct (getConn_errors ctx0 (ready (cancelCtx ctx0 store0))) as [Hdone _].
  destruct (Hdone CtxCanceled eq_refl) as (err & Hrun & -> & _).
  exact Hrun.
Defined.

Lemma getConn_uses_one_snapshot_witness :
  exists res w' evs,
    getConnFrom snapshot ctx0 (ready localsBanned) = Some (res, w', evs) /\
    getConnFrom snapshot ctx0
      (set_bal (set_connectionsState None) (ready localsBanned)) =
      Some (res, set_bal (set_connectionsState None) w', evs).
Proof.
  destruct (getConn_uses_one_snapshot ctx0 (ready localsBanned) snapshot)
    as (_ & res & w' & evs & Hfrom & _ & _ & _ & _ & Hpub);
    [reflexivity | reflexivity |].
  exists res, w', evs. split; [exact Hfrom | exact (Hpub None)].
Defined.

(** A call that fails with UNAVAILABLE, a configured code: the caller gets
    the error and the connection is Banned. *)
Lemma wrapCall_failure_witness :
  exists w' evs,
    wrapCall ctx0 opUnavailable (ready store0) =
      Some (Some (WithStackTrace (TransportError 14 "unavailable")), w', evs) /\
    GetState (store w') connA = Banned.
Proof.
  destruct (wrapCall_failure ctx0 opUnavailable (ready store0) connA (ready store0)
              chooseA (WithValue ctx0 "meta") store0
              (TransportError 14 "unavailable") store0)
    as (w' & evs & Hrun & _ & _ & Hban & _);
    [reflexivity | reflexivity | reflexivity |].
  exists w', evs. split; [exact Hrun|].
  by destruct (Hban eq_refl) as (_ & Hstate & _).
Defined.

(** A call that fails with NOT_FOUND, not a configured code: the caller
    gets the error and the pool is untouched. *)
Example wrapCall_not_pessimizable :
  wrapCall ctx0 opNotFound (ready store0) =
    Some (Some (WithStackTrace (TransportError 5 "not found")), ready store0,
          chooseA ++ [EvMeta ctx0; EvOperation (WithValue ctx0 "meta") connA]).
Proof. reflexivity. Qed.

(** A call that succeeds on a connection banned in the meantime. *)
Lemma wrapCall_success_witness :
  exists w' evs,
    wrapCall ctx0 opOkBanned (ready store0) = Some (None, w', evs) /\
    GetState (store w') connA = Allowed.
Proof.
  destruct (wrapCall_success ctx0 opOkBanned (ready store0) connA (ready store0)
              chooseA (WithValue ctx0 "meta") store0
              (poolBan connA (TransportError 14 "unavailable") store0))
    as (w' & evs & Hrun & _ & Hban & _);
    [reflexivity | reflexivity | reflexivity |].
  exists w', evs. split; [exact Hrun|].
  by destruct (Hban eq_refl) as (_ & Hstate & _).
Defined.

(** Metadata that fails with a configured code bans the connection the
    call never used. *)
Lemma wrapCall_meta_failure_witness :
  exists w' evs,
    wrapCall noCredentials opOk readyUnauthenticated =
      Some (Some (WithStackTrace (TransportError 16 "unauthenticated")), w', evs) /\
    GetState (store w') connA = Banned /\
    evs = chooseA' ++ [EvMeta noCredentials;
                       EvPoolBan noCredentials connA
                         (WithStackTrace (TransportError 16 "unauthenticated"))].
Proof.
  destruct (wrapCall_meta_failure noCredentials opOk readyUnauthenticated connA
              readyUnauthenticated chooseA' noCredentials
              (TransportError 16 "unauthenticated") store0)
    as (w' & evs & Hrun & _ & _ & Hban & _);
    [reflexivity | reflexivity |].
  exists w', evs. split; [exact Hrun|].
  by destruct (Hban eq_refl) as (_ & Hstate & Hevs).
Defined.

(** Single-connection mode on the small cluster, the connection Banned. *)
Lemma single_connection_mode_witness :
  exists b st,
    New ctx0 (config singleCfg) {| Interval := 60 |} store0 =
      Some (inl b, store0,
            [EvTrace OnBalancerInit; EvPoolGet (endpointNew "ydb.example:2135");
             EvPublish; EvTrace (OnBalancerInitDone None)]) /\
    discoveryRepeater b = None /\
    connectionsState b = Some st /\
    fst (GetConnection st ctx0 (GetState singleBanned)) = Some connSingle.
Proof.
  destruct (single_connection_mode ctx0 (config singleCfg) {| Interval := 60 |}
              store0 singleCfg)
    as (b & st & Hnew & Hrep & Hst & _ & Hsel & _);
    [reflexivity | reflexivity |].
  exists b, st. split; [exact Hnew|]. split; [exact Hrep|].
  split; [exact Hst | apply Hsel].
Defined.

(** Discovery on the small cluster un-bans the two local connections. *)
Example rediscovery_allows_banned :
  exists w' evs,
    clusterDiscoveryAttempt ctx0 (ready localsBanned) = Some (None, w', evs) /\
    GetState (store w') connA = Allowed /\
    GetState (store w') connB = Allowed /\
    connectionsState (bal w') = Some snapshot.
Proof. do 2 eexists. split_and!; reflexivity. Qed.

(** The dial fails with a deadline error while the caller's context is
    live: the attempt's error is marked retryable. *)
Example attempt_timeout_is_retryable :
  exists w' evs,
    clusterDiscoveryAttempt ctx0
      (ready (dialFails (ContextError CtxDeadlineExceeded) store0)) =
      Some (Some (WithStackTrace (Retryable
              (WithStackTrace (WithStackTrace (ContextError CtxDeadlineExceeded))))),
            w', evs) /\
    evs = [EvTrace (OnBalancerUpdate true);
           EvDial "dns:///ydb.example:2135" child0;
           EvCancel child0;
           EvTrace (OnBalancerUpdateDone [] ""
             (Some (WithStackTrace (Retryable
                (WithStackTrace (WithStackTrace (ContextError CtxDeadlineExceeded)))))))].
Proof. do 2 eexists. split; reflexivity. Qed.

(** The dial fails with a cancellation that is not the child context's:
    that context is live when the dial returns, and nothing but the
    deferred [cancel] follows. The caller's context is live, so the error
    is marked retryable all the same. *)
Lemma attempt_marks_foreign_cancellation :
  exists s1 w' evs,
    dialContext (dialTarget (ready (dialFails (ContextError CtxCanceled) store0))) child0
      (dialFails (ContextError CtxCanceled) store0)
      = (Some (ContextError CtxCanceled), s1) /\
    ctxErr s1 child0 = None /\
    ctxErr s1 ctx0 = None /\
    clusterDiscoveryAttempt ctx0 (ready (dialFails (ContextError CtxCanceled) store0)) =
      Some (Some (WithStackTrace (Retryable
              (WithStackTrace (WithStackTrace (ContextError CtxCanceled))))),
            w', evs) /\
    evs = [EvTrace (OnBalancerUpdate true);
           EvDial "dns:///ydb.example:2135" child0;
           EvCancel child0;
           EvTrace (OnBalancerUpdateDone [] ""
             (Some (WithStackTrace (Retryable
                (WithStackTrace (WithStackTrace (ContextError CtxCanceled)))))))].
Proof. do 3 eexists. split_and!; reflexivity. Qed.

(** The same failure when the caller's context is cancelled: as it is. *)
Example attempt_cancelled_parent_not_retryable :
  exists w' evs,
    clusterDiscoveryAttempt ctx0
      (ready (cancelCtx ctx0 (dialFails (ContextError CtxCanceled) store0))) =
      Some (Some (WithStackTrace (WithStackTrace (ContextError CtxCanceled))), w', evs).
Proof. do 2 eexists. reflexivity. Qed.

(** A transport failure of the dial, caller's context live: as it is. *)
Example attempt_transport_error_not_retryable :
  exists w' evs,
    clusterDiscoveryAttempt ctx0
      (ready (dialFails (TransportError 14 "unavailable") store0)) =
      Some (Some (WithStackTrace (WithStackTrace (TransportError 14 "unavailable"))),
            w', evs).
Proof. do 2 eexists. reflexivity. Qed.

(** Closing the balancer of the small cluster: one [Stop], and the
    repeater runs no more. *)
Example close_stops_repeater :
  exists w',
    Close ctx0 (ready localsBanned) =
      Some (None, w',
            [EvTrace OnBalancerClose; EvStop; EvTrace (OnBalancerCloseDone None)]) /\
    store w' = localsBanned /\
    connectionsState (bal w') = Some snapshot /\
    onDiscovery (bal w') = [7%nat; 8%nat] /\
    discoveryRepeater (bal w') = Some (repeaterStop (repeaterNew 60)) /\
    repeaterRun ctx0 w' = Some (tt, w', []).
Proof. eexists. split_and!; reflexivity. Qed.

(** The events of publishing the three endpoints with two subscribers. *)
Example publish_order :
  exists w',
    applyDiscoveredEndpoints child0 [local1; local2; remote] "dc1" (ready localsBanned) =
      Some (tt, w',
            [EvPoolGet local1; EvPoolGet local2; EvPoolGet remote;
             EvPoolAllow child0 connA; EvTouch connA;
             EvPoolAllow child0 connB; EvTouch connB;
             EvPoolAllow child0 connC; EvTouch connC;
             EvLock; EvPublish;
             EvNotify 7 child0 [local1; local2; remote];
             EvNotify 8 child0 [local1; local2; remote];
             EvUnlock]).
Proof. eexists. reflexivity. Qed.

End Witness.

(** * Further properties of the balancer *)

(** ** Contexts *)

Section ContextFacts.

Context {Env : Type}.
Implicit Types (s : Store Env) (ctx p : Ctx).





Lemma cancelCtx_health s ctx : health (cancelCtx ctx s) = health s.
Proof. unfold cancelCtx. by destruct (ctxErr s ctx). Qed.

End ContextFacts.

(** ** The pool under the first loop of [applyDiscoveredEndpoints] *)

Section AllowAllFacts.

Context {Env : Type}.
Implicit Types (s : Store Env) (c : Conn) (conns : list Conn).


Lemma allowAll_health_lookup conns s a :
  health (allowAll conns s) !! a =
    if decide (a ∈ connAddresses conns) then Some Allowed else health s !! a.
Proof.
  revert s. induction conns as [|c conns IH]; intros s.
  - change (allowAll [] s) with s.
    destruct (decide (a ∈ connAddresses [])) as [H|H]; [|reflexivity].
    by apply elem_of_nil in H.
  - change (allowAll (c :: conns) s) with (allowAll conns (Touch c (poolAllow c s))).
    rewrite IH.
    change (connAddresses (c :: conns))
      with (Address (connEndpoint c) :: connAddresses conns).
    change (health (Touch c (poolAllow c s)))
      with (<[Address (connEndpoint c) := Allowed]> (health s)).
    destruct (decide (a ∈ connAddresses conns)) as [Hin|Hnin];
      destruct (decide (a ∈ Address (connEndpoint c) :: connAddresses conns))
        as [Hin'|Hnin']; try reflexivity.
    + destruct Hnin'. by right.
    + apply elem_of_cons in Hin' as [->|Hin']; [|done].
      by rewrite lookup_insert_eq.
    + rewrite lookup_insert_ne; [reflexivity|].
      intros <-. destruct Hnin'. by left.
Qed.

Lemma allowAll_lastSeen_lookup conns s a :
  lastSeen (allowAll conns s) !! a =
    if decide (a ∈ connAddresses conns) then Some (clock s) else lastSeen s !! a.
Proof.
  revert s. induction conns as [|c conns IH]; intros s.
  - change (allowAll [] s) with s.
    destruct (decide (a ∈ connAddresses [])) as [H|H]; [|reflexivity].
    by apply elem_of_nil in H.
  - change (allowAll (c :: conns) s) with (allowAll conns (Touch c (poolAllow c s))).
    rewrite IH.
    change (connAddresses (c :: conns))
      with (Address (connEndpoint c) :: connAddresses conns).
    change (lastSeen (Touch c (poolAllow c s)))
      with (<[Address (connEndpoint c) := clock s]> (lastSeen s)).
    change (clock (Touch c (poolAllow c s))) with (clock s).
    destruct (decide (a ∈ connAddresses conns)) as [Hin|Hnin];
      destruct (decide (a ∈ Address (connEndpoint c) :: connAddresses conns))
        as [Hin'|Hnin']; try reflexivity.
    + destruct Hnin'. by right.
    + apply elem_of_cons in Hin' as [->|Hin']; [|done].
      by rewrite lookup_insert_eq.
    + rewrite lookup_insert_ne; [reflexivity|].
      intros <-. destruct Hnin'. by left.
Qed.


Lemma connAddresses_poolGet endpoints :
  connAddresses (map poolGet endpoints) = addresses endpoints.
Proof. unfold connAddresses, addresses. rewrite map_map. reflexivity. Qed.

End AllowAllFacts.

(** ** Publishing, again *)

Section Publishing.

Context {Env : Type} `{Sel : Selector} `{Ext : Externals Env}
        `{Rty : !RetryPolicy Env}.

Implicit Types (w : World Env) (ctx : Ctx) (s : Store Env).

Lemma applyDiscoveredEndpoints_applied ctx endpoints localDC w :
  applyDiscoveredEndpoints ctx endpoints localDC w =
    Some (tt, applied ctx endpoints localDC w,
          applyEvents ctx endpoints (onDiscovery (bal w))).
Proof. apply applyDiscoveredEndpoints_run. Qed.

Lemma applyEvents_Forall (P : Event -> Prop) ctx endpoints subs :
  (forall e, P (EvPoolGet e)) ->
  (forall c x, P (EvPoolAllow c x)) ->
  (forall c, P (EvTouch c)) ->
  P EvLock -> P EvPublish ->
  (forall sub c l, P (EvNotify sub c l)) ->
  P EvUnlock ->
  Forall P (applyEvents ctx endpoints subs).
Proof.
  intros Hget Hallow Htouch Hlock Hpub Hnotify Hunlock.
  unfold applyEvents, allowEvents. rewrite !Forall_app. split_and!.
  - apply Forall_forall. intros e [x [-> _]]%list_elem_of_fmap. apply Hget.
  - induction (map poolGet endpoints) as [|c l IH]; simpl; auto.
  - auto.
  - apply Forall_forall. intros e [x [-> _]]%list_elem_of_fmap. apply Hnotify.
  - auto.
Qed.

(** X1. [applyDiscoveredEndpoints] never bans: a connection that was
    Allowed is Allowed when the lock is taken; and for an address that is
    not in the discovered list neither the health nor the last-seen stamp
    changes. The clock, the contexts and the environment are not touched
    by the loop; what the store is afterwards is up to the subscribers. *)
Theorem applyDiscoveredEndpoints_pool_frame ctx endpoints localDC w :
  exists w' evs sLock,
    applyDiscoveredEndpoints ctx endpoints localDC w = Some (tt, w', evs) /\
    sLock = allowAll (map poolGet endpoints) (store w) /\
    store w' = notifyAll ctx endpoints (onDiscovery (bal w)) sLock /\
    (forall a, a ∉ addresses endpoints ->
       health sLock !! a = health (store w) !! a /\
       lastSeen sLock !! a = lastSeen (store w) !! a) /\
    (forall c, GetState (store w) c = Allowed -> GetState sLock c = Allowed) /\
    clock sLock = clock (store w) /\
    done sLock = done (store w) /\
    env sLock = env (store w).
Proof.
  do 3 eexists. split; [apply applyDiscoveredEndpoints_applied|].
  split; [reflexivity|]. split; [reflexivity|]. split_and!.
  - intros a Ha.
    rewrite allowAll_health_lookup, allowAll_lastSeen_lookup, connAddresses_poolGet.
    by rewrite !decide_False by exact Ha.
  - intros c Hc. by apply allowAll_keeps_Allowed.
  - apply allowAll_clock.
  - apply allowAll_done.
  - apply allowAll_env.
Qed.


(** X3. An empty discovery result is applied like any other: no pool
    call is made, the published state is replaced by the state of no
    connections, and every subscriber is still called, with the empty
    list. *)
Theorem applyDiscoveredEndpoints_empty ctx localDC w :
  exists w',
    applyDiscoveredEndpoints ctx [] localDC w =
      Some (tt, w',
            [EvLock; EvPublish]
            ++ map (fun sub => EvNotify sub ctx []) (onDiscovery (bal w))
            ++ [EvUnlock]) /\
    store w' = notifyAll ctx [] (onDiscovery (bal w)) (store w) /\
    connectionsState (bal w') =
      Some (newConnectionsState [] (IsPreferConn (balancerConfig (bal w)))
              {| SelfLocation := localDC |} (AllowFalback (balancerConfig (bal w)))) /\
    onDiscovery (bal w') = onDiscovery (bal w) /\
    discoveryRepeater (bal w') = discoveryRepeater (bal w).
Proof.
  eexists. split; [apply applyDiscoveredEndpoints_applied|]. by split_and!.
Qed.

(** X4. [OnUpdate] registers the callback after the ones already there,
    under the lock, and touches nothing else; the next publication calls
    the earlier subscribers and then the new one, each with the
    discovered list. A callback registered twice is called twice. *)
Theorem OnUpdate_then_publish sub ctx endpoints localDC w :
  exists w1 w2,
    OnUpdate sub w = Some (tt, w1, [EvLock; EvSubscribe sub; EvUnlock]) /\
    store w1 = store w /\
    connectionsState (bal w1) = connectionsState (bal w) /\
    discoveryRepeater (bal w1) = discoveryRepeater (bal w) /\
    onDiscovery (bal w1) = onDiscovery (bal w) ++ [sub] /\
    applyDiscoveredEndpoints ctx endpoints localDC w1 =
      Some (tt, w2,
            map EvPoolGet endpoints
            ++ allowEvents ctx (map poolGet endpoints)
            ++ [EvLock; EvPublish]
            ++ map (fun sub => EvNotify sub ctx endpoints) (onDiscovery (bal w))
            ++ [EvNotify sub ctx endpoints; EvUnlock]) /\
    store w2 =
      subscriber sub ctx endpoints
        (notifyAll ctx endpoints (onDiscovery (bal w))
           (allowAll (map poolGet endpoints) (store w))).
Proof.
  do 2 eexists. split; [reflexivity|]. simpl.
  split; [reflexivity|]. split; [reflexivity|]. split; [reflexivity|].
  split; [reflexivity|]. rewrite applyDiscoveredEndpoints_applied. split.
  - unfold applyEvents. simpl. rewrite map_app. simpl.
    by rewrite <- !app_assoc.
  - unfold applied, notifyAll. simpl. by rewrite foldl_app.
Qed.

End Publishing.

(** ** Calls, again *)

Section CallFacts.

Context {Env : Type} `{Sel : Selector} `{Ext : Externals Env}
        `{Rty : !RetryPolicy Env} `{Calls : ConnCalls Env}.

Implicit Types (w : World Env) (ctx : Ctx) (f : Operation Env) (s : Store Env).

(** Every run of [getConn]: what it can change and what it emits. *)
Lemma getConn_inv ctx w res w' evs :
  getConn ctx w = Some (res, w', evs) ->
  store w' = store w /\
  connectionsState (bal w') = connectionsState (bal w) /\
  onDiscovery (bal w') = onDiscovery (bal w) /\
  driverConfig (bal w') = driverConfig (bal w) /\
  balancerConfig (bal w') = balancerConfig (bal w) /\
  repInterval <$> discoveryRepeater (bal w') = repInterval <$> discoveryRepeater (bal w) /\
  repStopped <$> discoveryRepeater (bal w') = repStopped <$> discoveryRepeater (bal w) /\
  Forall (fun e => isSelectionEvent e = true) evs.
Proof.
  intros Hrun. destruct (ctxErr (store w) ctx) as [k|] eqn:Hctx.
  - rewrite (getConn_done _ _ _ Hctx) in Hrun. injection Hrun as <- <- <-.
    split_and!; try reflexivity. repeat constructor.
  - destruct (connectionsState (bal w)) as [state|] eqn:Hst.
    + rewrite (getConn_live _ _ _ Hctx Hst), getConnFrom_run in Hrun.
      destruct (_ && _); injection Hrun as <- <- <-; simpl;
        (split_and!; try reflexivity; try done);
        try (by destruct (discoveryRepeater (bal w)));
        unfold chooseDone; repeat constructor.
    + unfold getConn, connections, bind, emit, gets, ret, panic in Hrun.
      simpl in Hrun. rewrite Hctx in Hrun. simpl in Hrun.
      rewrite Hst in Hrun. discriminate.
Qed.

(** Every run of [wrapCall], by what stopped it or let it through. *)
Lemma wrapCall_inv ctx f w r w' evs :
  wrapCall ctx f w = Some (r, w', evs) ->
  exists res w1 evs1,
    getConn ctx w = Some (res, w1, evs1) /\
    bal w' = bal w1 /\
    ((exists err,
        res = inr err /\ r = Some (WithStackTrace err) /\ w' = w1 /\ evs = evs1) \/
     (exists cc ctx' e s2 tail,
        res = inl cc /\
        MetaContext (driverConfig (bal w1)) ctx (store w1) = ((ctx', Some e), s2) /\
        r = Some (WithStackTrace e) /\
        store w' = afterReport (bal w1) cc r s2 /\
        evs = evs1 ++ EvMeta ctx :: tail /\
        Forall (fun e => isPoolCallEvent e = true) tail) \/
     (exists cc ctx' s2 ferr s3 tail,
        res = inl cc /\
        MetaContext (driverConfig (bal w1)) ctx (store w1) = ((ctx', None), s2) /\
        f ctx' cc s2 = (ferr, s3) /\
        r = returned ctx' <$> ferr /\
        store w' = afterReport (bal w1) cc r s3 /\
        evs = evs1 ++ EvMeta ctx :: EvOperation ctx' cc :: tail /\
        Forall (fun e => isPoolCallEvent e = true) tail)).
Proof.
  intros Hrun. unfold wrapCall, bind in Hrun.
  destruct (getConn ctx w) as [[[res w1] evs1]|] eqn:Hget; [|discriminate].
  exists res, w1, evs1. split; [reflexivity|].
  destruct res as [cc|err].
  - unfold call, emit, gets, ret in Hrun. simpl in Hrun.
    destruct (MetaContext (driverConfig (bal w1)) ctx (store w1))
      as [[ctx' merr] s2] eqn:Hmeta.
    simpl in Hrun. destruct merr as [e|]; simpl in Hrun.
    + unfold reportOutcome, bind, gets, emit, exec, modify, ret in Hrun.
      simpl in Hrun.
      destruct (MustPessimizeEndpoint (WithStackTrace e) _) eqn:Hp; simpl in Hrun;
        injection Hrun as <- <- <-; (split; [reflexivity|]);
        right; left; exists cc, ctx', e, s2; eexists;
        (split_and!; [reflexivity | reflexivity | reflexivity | | reflexivity | ]);
        try (unfold afterReport; simpl; by rewrite Hp); repeat constructor.
    + destruct (f ctx' cc s2) as [ferr s3] eqn:Hf. simpl in Hrun.
      destruct ferr as [e|]; simpl in Hrun.
      * assert (Hret : exists tail,
                  r = Some (returned ctx' e) /\ bal w' = bal w1 /\
                  store w' = afterReport (bal w1) cc (Some (returned ctx' e)) s3 /\
                  evs = evs1 ++ EvMeta ctx :: EvOperation ctx' cc :: tail /\
                  Forall (fun e => isPoolCallEvent e = true) tail).
        { unfold returned, afterReport.
          destruct (UseWrapping ctx'); simpl in Hrun;
            unfold reportOutcome, bind, gets, emit, exec, modify, ret in Hrun;
            simpl in Hrun;
            destruct (MustPessimizeEndpoint _ _) eqn:Hp; simpl in Hrun;
            injection Hrun as <- <- <-; eexists;
            (split_and!; [reflexivity | reflexivity | | reflexivity | ]);
            try (simpl; by rewrite ?Hp); repeat constructor. }
        destruct Hret as (tail & -> & Hbal & Hstore & -> & Htail).
        split; [exact Hbal|]. right; right.
        exists cc, ctx', s2, (Some e), s3, tail. by split_and!.
      * unfold reportOutcome, bind, gets, emit, exec, modify, ret in Hrun.
        simpl in Hrun.
        destruct (decide (GetState s3 cc = Banned)) as [Hb|Hb] eqn:Hdec; simpl in Hrun;
          injection Hrun as <- <- <-; (split; [reflexivity|]);
          right; right; exists cc, ctx', s2, None, s3; eexists;
          (split_and!; try done);
          try (unfold afterReport; simpl; by rewrite Hdec); repeat constructor.
  - simpl in Hrun. injection Hrun as <- <- <-.
    split; [reflexivity|]. left. exists err. by rewrite app_nil_r.
Qed.

Lemma filter_none {A} (p q : A -> bool) (l : list A) :
  (forall x, q x = true -> p x = false) ->
  Forall (fun e => q e = true) l ->
  List.filter p l = [].
Proof.
  intros Hpq Hl. induction Hl as [|x l Hx Hl IH]; [reflexivity|].
  simpl. by rewrite (Hpq x Hx).
Qed.

Lemma selection_not_operation (e : Event) :
  isSelectionEvent e = true -> isOperationEvent e = false.
Proof. by destruct e. Qed.

Lemma selection_not_meta (e : Event) : isSelectionEvent e = true -> isMetaEvent e = false.
Proof. by destruct e. Qed.

Lemma selection_not_pool (e : Event) :
  isSelectionEvent e = true -> isPoolCallEvent e = false.
Proof. by destruct e. Qed.

Lemma pool_not_operation (e : Event) :
  isPoolCallEvent e = true -> isOperationEvent e = false.
Proof. by destruct e. Qed.

Lemma pool_not_meta (e : Event) : isPoolCallEvent e = true -> isMetaEvent e = false.
Proof. by destruct e. Qed.

(** X5. [getConn] is read-only on everything but the repeater's pending
    forced runs: the store (so the health of every connection), the
    published state and the subscribers are as before, no repeater is
    created, removed, stopped or restarted, and the call makes no pool,
    metadata or operation call. *)
Theorem getConn_changes_only_forced ctx w res w' evs :
  getConn ctx w = Some (res, w', evs) ->
  store w' = store w /\
  connectionsState (bal w') = connectionsState (bal w) /\
  onDiscovery (bal w') = onDiscovery (bal w) /\
  repInterval <$> discoveryRepeater (bal w') = repInterval <$> discoveryRepeater (bal w) /\
  repStopped <$> discoveryRepeater (bal w') = repStopped <$> discoveryRepeater (bal w) /\
  List.filter isPoolCallEvent evs = [] /\
  List.filter isMetaEvent evs = [] /\
  List.filter isOperationEvent evs = [].
Proof.
  intros Hrun.
  destruct (getConn_inv _ _ _ _ _ Hrun) as (Hs & Hc & Ho & _ & _ & Hi & Hst & Hev).
  split_and!; try done.
  - exact (filter_none _ _ _ selection_not_pool Hev).
  - exact (filter_none _ _ _ selection_not_meta Hev).
  - exact (filter_none _ _ _ selection_not_operation Hev).
Qed.

(** X6. Closing the balancer does not change what a call gets: [getConn]
    after [Close] returns the same connection or error and makes the same
    calls as it would have before, a forced run on the (now stopped)
    repeater included, since [Close] keeps the repeater in place. *)
Theorem getConn_after_Close ctx0 ctx w wc cevs res w' evs :
  Close ctx0 w = Some (None, wc, cevs) ->
  getConn ctx w = Some (res, w', evs) ->
  exists w'',
    getConn ctx wc = Some (res, w'', evs) /\
    store w'' = store w' /\
    connectionsState (bal w'') = connectionsState (bal w') /\
    (discoveryRepeater (bal w) <> None ->
     repStopped <$> discoveryRepeater (bal w'') = Some true).
Proof.
  intros Hclose Hrun.
  assert (store wc = store w /\
          connectionsState (bal wc) = connectionsState (bal w) /\
          discoveryRepeater (bal wc) = repeaterStop <$> discoveryRepeater (bal w))
    as (Hs & Hc & Hr).
  { unfold Close, bind, emit, gets, modify, ret in Hclose. simpl in Hclose.
    destruct (discoveryRepeater (bal w)) as [r|] eqn:Hr; simpl in Hclose;
      injection Hclose as <- <-; simpl; by rewrite ?Hr. }
  destruct (ctxErr (store w) ctx) as [k|] eqn:Hctx.
  - rewrite (getConn_done _ _ _ Hctx) in Hrun. injection Hrun as <- <- <-.
    exists wc. rewrite <- Hs in Hctx. split; [by apply getConn_done|].
    split_and!; try done.
    intros Hne. rewrite Hr. by destruct (discoveryRepeater (bal w)).
  - destruct (connectionsState (bal w)) as [state|] eqn:Hst.
    + rewrite (getConn_live _ _ _ Hctx Hst), getConnFrom_run in Hrun.
      assert (ctxErr (store wc) ctx = None) as Hctx' by (by rewrite Hs).
      rewrite (getConn_live _ _ state Hctx' Hc), getConnFrom_run.
      rewrite Hs, Hr.
      destruct (PreferredCount state <? _); simpl in *.
      * destruct (discoveryRepeater (bal w)) as [r|] eqn:Hrep; simpl in *;
          injection Hrun as <- <- <-; eexists; (split; [reflexivity|]);
          simpl; rewrite ?Hr, ?Hrep; split_and!; (done || congruence).
      * injection Hrun as <- <- <-. eexists. split; [reflexivity|].
        split_and!; try congruence.
        intros Hne. rewrite Hr. by destruct (discoveryRepeater (bal w)).
    + unfold getConn, connections, bind, emit, gets, ret, panic in Hrun.
      simpl in Hrun. rewrite Hctx in Hrun. simpl in Hrun.
      rewrite Hst in Hrun. discriminate.
Qed.

(** X7. [wrapCall] returns nil only if a connection was selected, the
    metadata was attached and the operation, run on that connection with
    the context the metadata gave, returned nil; and the connection it
    used is then not Banned. *)
Theorem wrapCall_nil_means_operation_ran ctx f w w' evs :
  wrapCall ctx f w = Some (None, w', evs) ->
  exists cc w1 evs1 ctx' s2 s3,
    getConn ctx w = Some (inl cc, w1, evs1) /\
    MetaContext (driverConfig (bal w1)) ctx (store w1) = ((ctx', None), s2) /\
    f ctx' cc s2 = (None, s3) /\
    EvOperation ctx' cc ∈ evs /\
    GetState (store w') cc <> Banned.
Proof.
  intros Hrun.
  destruct (wrapCall_inv _ _ _ _ _ _ Hrun) as (res & w1 & evs1 & Hget & Hbal & Hcases).
  destruct Hcases as [(err & _ & Hr & _)|[(cc & ctx' & e & s2 & tail & _ & _ & Hr & _)|Hok]];
    try discriminate.
  destruct Hok as (cc & ctx' & s2 & ferr & s3 & tail & -> & Hmeta & Hf & Hr & Hstore & -> & _).
  destruct ferr as [e|]; [discriminate|].
  exists cc, w1, evs1, ctx', s2, s3. split_and!; try done.
  - rewrite elem_of_app. right. right. by left.
  - rewrite Hstore. unfold afterReport.
    destruct (decide (GetState s3 cc = Banned)) as [Hb|Hb]; [|exact Hb].
    by rewrite GetState_poolAllow.
Qed.

(** X8. A call is never retried inside [wrapCall]: the operation is
    invoked at most once and the metadata is attached at most once, and
    the operation is not invoked unless the metadata was attached. *)
Theorem wrapCall_never_retries ctx f w r w' evs :
  wrapCall ctx f w = Some (r, w', evs) ->
  (length (List.filter isOperationEvent evs) <= 1)%nat /\
  (length (List.filter isMetaEvent evs) <= 1)%nat /\
  (length (List.filter isOperationEvent evs) <= length (List.filter isMetaEvent evs))%nat.
Proof.
  intros Hrun.
  destruct (wrapCall_inv _ _ _ _ _ _ Hrun) as (res & w1 & evs1 & Hget & Hbal & Hcases).
  destruct (getConn_inv _ _ _ _ _ Hget) as (_ & _ & _ & _ & _ & _ & _ & Hev).
  pose proof (filter_none _ _ _ selection_not_operation Hev) as Hop1.
  pose proof (filter_none _ _ _ selection_not_meta Hev) as Hmeta1.
  destruct Hcases as [(err & _ & _ & _ & ->)
                     |[(cc & ctx' & e & s2 & tail & _ & _ & _ & _ & -> & Htail)
                      |(cc & ctx' & s2 & ferr & s3 & tail & _ & _ & _ & _ & _ & -> & Htail)]].
  - rewrite Hop1, Hmeta1. simpl. lia.
  - rewrite !List.filter_app, Hop1, Hmeta1. simpl.
    rewrite (filter_none _ _ _ pool_not_operation Htail).
    rewrite (filter_none _ _ _ pool_not_meta Htail). simpl. lia.
  - rewrite !List.filter_app, Hop1, Hmeta1. simpl.
    rewrite (filter_none _ _ _ pool_not_operation Htail).
    rewrite (filter_none _ _ _ pool_not_meta Htail). simpl. lia.
Qed.

(** X9. When no connection can be obtained, [wrapCall] returns the error
    of [getConn] (identity kept, under a stack trace) whatever the
    operation is, and does nothing else: the store is untouched, and
    neither the metadata, nor the operation, nor the pool is called. *)
Theorem wrapCall_without_connection ctx f w err w1 evs1 :
  getConn ctx w = Some (inr err, w1, evs1) ->
  wrapCall ctx f w = Some (Some (WithStackTrace err), w1, evs1) /\
  (forall g, wrapCall ctx g w = wrapCall ctx f w) /\
  errorsIs (WithStackTrace err) err = true /\
  store w1 = store w /\
  List.filter isMetaEvent evs1 = [] /\
  List.filter isOperationEvent evs1 = [] /\
  List.filter isPoolCallEvent evs1 = [].
Proof.
  intros Hget.
  destruct (getConn_inv _ _ _ _ _ Hget) as (Hs & _ & _ & _ & _ & _ & _ & Hev).
  split_and!.
  - by apply wrapCall_no_conn.
  - intros g. by rewrite !(wrapCall_no_conn _ _ _ _ _ _ Hget).
  - apply errorsIs_WithStackTrace, errorsIs_refl.
  - exact Hs.
  - exact (filter_none _ _ _ selection_not_meta Hev).
  - exact (filter_none _ _ _ selection_not_operation Hev).
  - exact (filter_none _ _ _ selection_not_pool Hev).
Qed.

(** X10. [Invoke] returns nil only if the RPC was sent: the method was
    invoked on the connection [getConn] selected, with the context the
    metadata gave (not the caller's bare context), and it returned nil;
    the connection is then not Banned. *)
Theorem Invoke_nil_means_sent ctx method w w' evs :
  Invoke ctx method w = Some (None, w', evs) ->
  exists cc w1 evs1 ctx' s2 s3,
    getConn ctx w = Some (inl cc, w1, evs1) /\
    MetaContext (driverConfig (bal w1)) ctx (store w1) = ((ctx', None), s2) /\
    connInvoke method ctx' cc s2 = (None, s3) /\
    evs = evs1 ++ [EvMeta ctx; EvOperation ctx' cc]
          ++ (if decide (GetState s3 cc = Banned) then [EvPoolAllow ctx' cc] else []) /\
    GetState (store w') cc <> Banned.
Proof.
  unfold Invoke. intros Hrun.
  destruct (wrapCall_inv _ _ _ _ _ _ Hrun) as (res & w1 & evs1 & Hget & Hbal & Hcases).
  destruct Hcases as [(err & _ & Hr & _)|[(cc & ctx' & e & s2 & tail & _ & _ & Hr & _)|Hok]];
    try discriminate.
  destruct Hok as (cc & ctx' & s2 & ferr & s3 & tail & -> & Hmeta & Hf & Hr & Hstore & Hevs & _).
  destruct ferr as [e|]; [discriminate|].
  exists cc, w1, evs1, ctx', s2, s3. split_and!; try done.
  - unfold wrapCall, bind in Hrun. rewrite Hget in Hrun. simpl in Hrun.
    unfold call, emit, gets, ret in Hrun. simpl in Hrun.
    rewrite Hmeta in Hrun. simpl in Hrun. rewrite Hf in Hrun. simpl in Hrun.
    unfold reportOutcome, bind, gets, emit, exec, modify, ret in Hrun.
    simpl in Hrun.
    destruct (decide (GetState s3 cc = Banned)); simpl in Hrun;
      by injection Hrun as _ <-.
  - rewrite Hstore. unfold afterReport.
    destruct (decide (GetState s3 cc = Banned)) as [Hb|Hb]; [|exact Hb].
    by rewrite GetState_poolAllow.
Qed.

End CallFacts.

Section AttemptFacts.

Context {Env : Type} `{Sel : Selector} `{Ext : Externals Env}
        `{Rty : !RetryPolicy Env}.

Implicit Types (w : World Env) (ctx : Ctx) (s : Store Env).

Lemma filter_all {A} (p : A -> bool) (l : list A) :
  Forall (fun e => p e = true) l -> List.filter p l = l.
Proof.
  intros Hl. induction Hl as [|x l Hx Hl IH]; [reflexivity|].
  simpl. by rewrite Hx, IH.
Qed.

Lemma applyEvents_apply ctx endpoints subs :
  Forall (fun e => isApplyEvent e = true) (applyEvents ctx endpoints subs).
Proof. by apply applyEvents_Forall. Qed.



(** What [discoverAndApply] did, from its result. *)
Lemma discoverAndApply_inv child w res w2 mid :
  discoverAndApply child w = Some (res, w2, mid) ->
  exists eps derr s2,
    clientDiscover child (store w) = ((eps, derr), s2) /\
    match derr with
    | Some e =>
        res = (eps, "", Some (WithStackTrace e)) /\
        w2 = set_store (fun _ => s2) w /\ mid = [EvDiscover child]
    | None =>
        if DetectlocalDC (balancerConfig (bal w)) then
          exists dc lerr s3,
            detectLocalDC child eps s2 = ((dc, lerr), s3) /\
            match lerr with
            | Some e =>
                res = (eps, dc, Some (WithStackTrace e)) /\
                w2 = set_store (fun _ => s3) w /\
                mid = [EvDiscover child; EvDetectLocalDC child]
            | None =>
                res = (eps, dc, None) /\
                w2 = applied child eps dc (set_store (fun _ => s3) w) /\
                mid = [EvDiscover child; EvDetectLocalDC child]
                      ++ applyEvents child eps (onDiscovery (bal w))
            end
        else
          res = (eps, "", None) /\
          w2 = applied child eps "" (set_store (fun _ => s2) w) /\
          mid = EvDiscover child :: applyEvents child eps (onDiscovery (bal w))
    end.
Proof.
  intros H. unfold discoverAndApply, bind, gets, emit, call, ret in H. simpl in H.
  destruct (clientDiscover child (store w)) as [[eps derr] s2] eqn:Hd. simpl in H.
  exists eps, derr, s2. split; [reflexivity|].
  destruct derr as [e|]; simpl in H.
  { by injection H as <- <- <-. }
  destruct (DetectlocalDC (balancerConfig (bal w))); simpl in H.
  - destruct (detectLocalDC child eps s2) as [[dc lerr] s3] eqn:Hl. simpl in H.
    exists dc, lerr, s3. split; [reflexivity|].
    destruct lerr as [e|]; simpl in H.
    { by injection H as <- <- <-. }
    rewrite applyDiscoveredEndpoints_applied in H. simpl in H.
    injection H as <- <- <-. split_and!; try done.
    by rewrite app_nil_r.
  - rewrite applyDiscoveredEndpoints_applied in H. simpl in H.
    injection H as <- <- <-. split_and!; try done.
    by rewrite app_nil_r.
Qed.

(** What [discoveryAttemptBody] did, from its result. *)
Lemma discoveryAttemptBody_inv ctx w res w' evs :
  discoveryAttemptBody ctx w = Some (res, w', evs) ->
  exists derr s1,
    dialContext (dialTarget w) (childContext w ctx) (store w) = (derr, s1) /\
    match derr with
    | Some e =>
        res = ([], "", Some (WithStackTrace (WithStackTrace e))) /\
        w' = set_store (fun _ => cancelCtx (childContext w ctx) s1) w /\
        evs = [EvDial (dialTarget w) (childContext w ctx); EvCancel (childContext w ctx)]
    | None =>
        exists w2 mid,
          discoverAndApply (childContext w ctx) (set_store (fun _ => s1) w)
            = Some (res, w2, mid) /\
          w' = set_store (fun _ => cancelCtx (childContext w ctx) (clientClose ctx (store w2)))
                 w2 /\
          evs = EvDial (dialTarget w) (childContext w ctx)
                :: mid ++ [EvClientClose ctx; EvCancel (childContext w ctx)]
    end.
Proof.
  intros H.
  unfold discoveryAttemptBody, discoveryClient, bind, gets, emit, call, exec, modify, ret
    in H.
  simpl in H. fold (dialTarget w) in H. fold (childContext w ctx) in H.
  destruct (dialContext (dialTarget w) (childContext w ctx) (store w))
    as [derr s1] eqn:Hdial.
  exists derr, s1. split; [reflexivity|].
  destruct derr as [e|]; simpl in H.
  { by injection H as <- <- <-. }
  match type of H with
  | context [discoverAndApply ?c ?w1] =>
      destruct (discoverAndApply c w1) as [[[res2 w2] mid]|] eqn:Hrun; [|discriminate]
  end.
  simpl in H. injection H as <- <- <-.
  exists w2, mid. split_and!; try done.
  by rewrite <- app_assoc.
Qed.

(** What an attempt did, from its result. *)
Lemma clusterDiscoveryAttempt_inv ctx w r w' evs :
  clusterDiscoveryAttempt ctx w = Some (r, w', evs) ->
  exists endpoints localDC r0 body,
    discoveryAttemptBody ctx w = Some ((endpoints, localDC, r0), w', body) /\
    r = markRetryable (store w') ctx r0 /\
    evs = EvTrace (OnBalancerUpdate (DetectlocalDC (balancerConfig (bal w))))
          :: body ++ [EvTrace (OnBalancerUpdateDone endpoints localDC r)].
Proof.
  intros H.
  destruct (discoveryAttemptBody_total ctx w)
    as (endpoints & localDC & r0 & w0 & body & Hbody & _).
  unfold clusterDiscoveryAttempt, bind in H. unfold gets at 1, emit at 1 in H.
  simpl in H. rewrite Hbody in H. simpl in H. injection H as <- <- <-.
  by exists endpoints, localDC, r0, body.
Qed.

Lemma markRetryable_None s ctx r0 : markRetryable s ctx r0 = None -> r0 = None.
Proof.
  destruct r0 as [e|]; [|done]. unfold markRetryable.
  by destruct (bool_decide _ && Is e contextErrors).
Qed.

(** C4. Every discovery round that succeeds applies what it discovered,
    in this order: the endpoints reported by [Discover] are resolved in
    the pool, each resolved connection is allowed (whatever its health
    was) and its endpoint touched; only then the lock is taken, and
    between [Lock] and [Unlock] the new state is published and every
    registered subscriber is called once, in order of registration, with
    the discovered list; the client is closed and the child context
    cancelled after the lock is released. In the store the lock is taken
    in, every resolved connection is Allowed and its endpoint's last-seen
    stamp is the time of the round; the subscribers start from that
    store. *)
Theorem successful_round_applies_endpoints ctx w w' evs :
  clusterDiscoveryAttempt ctx w = Some (None, w', evs) ->
  exists endpoints localDC s1 s2 s0,
    dialContext (dialTarget w) (childContext w ctx) (store w) = (None, s1) /\
    clientDiscover (childContext w ctx) s1 = ((endpoints, None), s2) /\
    (if DetectlocalDC (balancerConfig (bal w))
     then detectLocalDC (childContext w ctx) endpoints s2 = ((localDC, None), s0)
     else localDC = "" /\ s0 = s2) /\
    evs = [EvTrace (OnBalancerUpdate (DetectlocalDC (balancerConfig (bal w))));
           EvDial (dialTarget w) (childContext w ctx);
           EvDiscover (childContext w ctx)]
          ++ (if DetectlocalDC (balancerConfig (bal w))
              then [EvDetectLocalDC (childContext w ctx)] else [])
          ++ map EvPoolGet endpoints
          ++ allowEvents (childContext w ctx) (map poolGet endpoints)
          ++ [EvLock; EvPublish]
          ++ map (fun sub => EvNotify sub (childContext w ctx) endpoints)
               (onDiscovery (bal w))
          ++ [EvUnlock; EvClientClose ctx; EvCancel (childContext w ctx);
              EvTrace (OnBalancerUpdateDone endpoints localDC None)] /\
    (forall e, e ∈ endpoints ->
       GetState (allowAll (map poolGet endpoints) s0) (poolGet e) = Allowed /\
       lastSeen (allowAll (map poolGet endpoints) s0) !! Address e = Some (clock s0)) /\
    connectionsState (bal w') = Some (discoveredState w endpoints localDC) /\
    onDiscovery (bal w') = onDiscovery (bal w) /\
    store w' =
      cancelCtx (childContext w ctx)
        (clientClose ctx
           (notifyAll (childContext w ctx) endpoints (onDiscovery (bal w))
              (allowAll (map poolGet endpoints) s0))).
Proof.
  intros H.
  destruct (clusterDiscoveryAttempt_inv _ _ _ _ _ H)
    as (endpoints & localDC & r0 & body & Hbody & Hr & ->).
  symmetry in Hr. apply markRetryable_None in Hr. subst r0.
  destruct (discoveryAttemptBody_inv _ _ _ _ _ Hbody) as (derr & s1 & Hdial & Hcase).
  destruct derr as [d|].
  { by destruct Hcase as ([=] & _). }
  destruct Hcase as (w2 & mid & Hrun & -> & ->).
  destruct (discoverAndApply_inv _ _ _ _ _ Hrun) as (eps & derr & s2 & Hd & Hcase).
  destruct derr as [d|].
  { by destruct Hcase as ([=] & _). }
  simpl in Hcase, Hd.
  assert (forall s0 e, e ∈ endpoints ->
            GetState (allowAll (map poolGet endpoints) s0) (poolGet e) = Allowed /\
            lastSeen (allowAll (map poolGet endpoints) s0) !! Address e = Some (clock s0))
    as Hall.
  { intros s0 e He.
    apply (allowAll_spec (map poolGet endpoints) s0 (poolGet e)).
    apply list_elem_of_fmap. by exists e. }
  destruct (DetectlocalDC (balancerConfig (bal w))) eqn:Hdet.
  - destruct Hcase as (dc & lerr & s3 & Hl & Hcase). destruct lerr as [d|].
    { by destruct Hcase as ([=] & _). }
    destruct Hcase as ([= <- <-] & -> & ->).
    exists endpoints, localDC, s1, s2, s3. split_and!; try done.
    + unfold applyEvents. simpl. by rewrite <- !app_assoc; simpl; rewrite <- ?app_assoc.
    + apply Hall.
  - destruct Hcase as ([= <- ->] & -> & ->).
    exists endpoints, "", s1, s2, s2. split_and!; try done.
    + unfold applyEvents. simpl. by rewrite <- !app_assoc; simpl; rewrite <- ?app_assoc.
    + apply Hall.
Qed.

(** X11. A discovery attempt that fails changes nothing of the balancer:
    the published state, the subscribers, the repeater and the
    configurations are the ones before, and nothing of the publication
    took place (no pool lookup or Allow, no Touch, no state swap, no
    subscriber call), wherever the attempt failed. *)
Theorem clusterDiscoveryAttempt_failure_keeps_state ctx w e w' evs :
  clusterDiscoveryAttempt ctx w = Some (Some e, w', evs) ->
  bal w' = bal w /\ List.filter isApplyEvent evs = [].
Proof.
  intros H.
  destruct (clusterDiscoveryAttempt_inv _ _ _ _ _ H)
    as (endpoints & localDC & r0 & body & Hbody & Hr & ->).
  destruct r0 as [e0|]; [|discriminate]. clear Hr.
  destruct (discoveryAttemptBody_inv _ _ _ _ _ Hbody) as (derr & s1 & Hdial & Hcase).
  destruct derr as [d|].
  { destruct Hcase as (_ & -> & ->). by split. }
  destruct Hcase as (w2 & mid & Hrun & -> & ->).
  destruct (discoverAndApply_inv _ _ _ _ _ Hrun) as (eps & derr & s2 & Hd & Hcase).
  destruct derr as [d|].
  { destruct Hcase as (_ & -> & ->). by split. }
  simpl in Hcase. destruct (DetectlocalDC (balancerConfig (bal w))).
  - destruct Hcase as (dc & lerr & s3 & Hl & Hcase). destruct lerr as [d|].
    + destruct Hcase as (_ & -> & ->). by split.
    + by destruct Hcase as ([=] & _).
  - by destruct Hcase as ([=] & _).
Qed.

(** X12. A discovery attempt that succeeds dialled the driver's endpoint
    on the child context, discovered on it, asked the location detector
    exactly when [DetectlocalDC] is set (the location is empty otherwise),
    and published the state built from the discovered endpoints with the
    balancer's own preference and fallback settings; nothing else of the
    balancer changed, and the calls of the publication are those of
    [applyDiscoveredEndpoints] on the child context. *)
Theorem clusterDiscoveryAttempt_success_publishes ctx w w' evs :
  clusterDiscoveryAttempt ctx w = Some (None, w', evs) ->
  exists endpoints localDC s1 s2,
    dialContext (dialTarget w) (childContext w ctx) (store w) = (None, s1) /\
    clientDiscover (childContext w ctx) s1 = ((endpoints, None), s2) /\
    (if DetectlocalDC (balancerConfig (bal w))
     then exists s3, detectLocalDC (childContext w ctx) endpoints s2 = ((localDC, None), s3)
     else localDC = "") /\
    bal w' = set_connectionsState (Some (discoveredState w endpoints localDC)) (bal w) /\
    List.filter isApplyEvent evs
      = applyEvents (childContext w ctx) endpoints (onDiscovery (bal w)) /\
    (EvDetectLocalDC (childContext w ctx) ∈ evs <->
     DetectlocalDC (balancerConfig (bal w)) = true).
Proof.
  intros H.
  destruct (clusterDiscoveryAttempt_inv _ _ _ _ _ H)
    as (endpoints & localDC & r0 & body & Hbody & Hr & ->).
  symmetry in Hr. apply markRetryable_None in Hr. subst r0.
  destruct (discoveryAttemptBody_inv _ _ _ _ _ Hbody) as (derr & s1 & Hdial & Hcase).
  destruct derr as [d|].
  { by destruct Hcase as ([=] & _). }
  destruct Hcase as (w2 & mid & Hrun & -> & ->).
  destruct (discoverAndApply_inv _ _ _ _ _ Hrun) as (eps & derr & s2 & Hd & Hcase).
  destruct derr as [d|].
  { by destruct Hcase as ([=] & _). }
  simpl in Hcase, Hd.
  pose proof (applyEvents_apply (childContext w ctx) eps (onDiscovery (bal w))) as Happly.
  destruct (DetectlocalDC (balancerConfig (bal w))) eqn:Hdet.
  - destruct Hcase as (dc & lerr & s3 & Hl & Hcase). destruct lerr as [d|].
    { by destruct Hcase as ([=] & _). }
    destruct Hcase as ([= <- <-] & -> & ->).
    exists endpoints, localDC, s1, s2. split_and!; try done.
    + by exists s3.
    + simpl. rewrite !List.filter_app. simpl.
      rewrite (filter_all _ _ Happly). by rewrite !app_nil_r.
    + split; [done|]. intros _. simpl. do 3 right. by left.
  - destruct Hcase as ([= <- ->] & -> & ->).
    exists endpoints, "", s1, s2. split_and!; try done.
    + simpl. rewrite !List.filter_app. simpl.
      rewrite (filter_all _ _ Happly). by rewrite !app_nil_r.
    + split; [|done]. intros Hin. exfalso.
      apply elem_of_cons in Hin as [[=]|Hin].
      apply elem_of_cons in Hin as [[=]|Hin].
      rewrite !elem_of_app in Hin. destruct Hin as [[Hin|Hin]|Hin].
      * apply elem_of_cons in Hin as [[=]|Hin].
        rewrite Forall_forall in Happly. by specialize (Happly _ Hin).
      * apply elem_of_cons in Hin as [[=]|Hin].
        apply elem_of_cons in Hin as [[=]|Hin]. by apply elem_of_nil in Hin.
      * apply elem_of_cons in Hin as [[=]|Hin]. by apply elem_of_nil in Hin.
Qed.


End AttemptFacts.

Section LifecycleFacts.

Context {Env : Type} `{Sel : Selector} `{Ext : Externals Env}
        `{Rty : !RetryPolicy Env}.

Implicit Types (w : World Env) (ctx : Ctx) (s : Store Env) (state : ConnectionsState).

Lemma running_stopped (r r' : option Repeater) :
  repStopped <$> r = repStopped <$> r' -> running r = running r'.
Proof. destruct r, r'; simpl; congruence. Qed.

(** With a state and a repeater that cannot run, an action keeps the
    state, does not revive the repeater and runs no discovery. *)
Lemma perform_not_running (a : Action) w state :
  connectionsState (bal w) = Some state ->
  running (discoveryRepeater (bal w)) = false ->
  exists w' evs,
    perform a w = Some (tt, w', evs) /\
    connectionsState (bal w') = Some state /\
    running (discoveryRepeater (bal w')) = false /\
    Forall (fun e => isDiscoveryEvent e = false) evs.
Proof.
  intros Hst Hrun. destruct a as [ctx|ctx f|sub|ctx|ctx]; simpl.
  - destruct (getConn_total ctx w state Hst)
      as (res & w' & evs & Hget & _ & Hc & _ & _ & _ & _ & Hev).
    destruct (getConn_inv _ _ _ _ _ Hget) as (_ & _ & _ & _ & _ & _ & Hstop & _).
    unfold bind. rewrite Hget. simpl. do 2 eexists. split; [reflexivity|].
    split; [congruence|]. split.
    + by rewrite (running_stopped _ _ Hstop).
    + by rewrite app_nil_r.
  - destruct (wrapCall_total ctx f w state Hst)
      as (r & w' & evs & Hcall & Hc & _ & _ & _ & _ & Hev).
    destruct (wrapCall_inv _ _ _ _ _ _ Hcall) as (res & w1 & evs1 & Hget & Hbal & _).
    destruct (getConn_inv _ _ _ _ _ Hget) as (_ & _ & _ & _ & _ & _ & Hstop & _).
    unfold bind. rewrite Hcall. simpl. do 2 eexists. split; [reflexivity|].
    split; [congruence|]. split.
    + by rewrite Hbal, (running_stopped _ _ Hstop).
    + by rewrite app_nil_r.
  - unfold OnUpdate, bind, emit, modify. simpl. do 2 eexists.
    split; [reflexivity|]. split; [exact Hst|]. split; [exact Hrun|].
    repeat constructor.
  - unfold Close, bind, emit, gets, modify, ret. simpl.
    destruct (discoveryRepeater (bal w)) as [r|] eqn:Hrep; simpl;
      do 2 eexists; (split; [reflexivity|]); simpl;
      (split; [exact Hst|]); rewrite ?Hrep; (split; [done|]);
      repeat constructor.
  - unfold repeaterRun, bind, gets, ret. simpl.
    destruct (discoveryRepeater (bal w)) as [r|] eqn:Hrep; simpl.
    + simpl in Hrun. apply negb_false_iff in Hrun. rewrite Hrun. simpl.
      do 2 eexists. split; [reflexivity|]. split; [exact Hst|].
      rewrite Hrep. simpl. rewrite Hrun. split; [done|]. constructor.
    + do 2 eexists. split; [reflexivity|]. split; [exact Hst|].
      rewrite Hrep. split; [done|]. constructor.
Qed.

Lemma performAll_not_running (l : list Action) w state :
  connectionsState (bal w) = Some state ->
  running (discoveryRepeater (bal w)) = false ->
  exists w' evs,
    performAll l w = Some (tt, w', evs) /\
    connectionsState (bal w') = Some state /\
    running (discoveryRepeater (bal w')) = false /\
    Forall (fun e => isDiscoveryEvent e = false) evs.
Proof.
  revert w. induction l as [|a l IH]; intros w Hst Hrun.
  - do 2 eexists. split; [reflexivity|]. by split_and!.
  - destruct (perform_not_running a w state Hst Hrun)
      as (w1 & evs1 & Hrun1 & Hst1 & Hrep1 & Hev1).
    destruct (IH w1 Hst1 Hrep1) as (w2 & evs2 & Hrun2 & Hst2 & Hrep2 & Hev2).
    unfold performAll in *. simpl. unfold bind. rewrite Hrun1, Hrun2.
    do 2 eexists. split; [reflexivity|]. split_and!; try done.
    rewrite Forall_app. auto.
Qed.

(** X14. [Close] is final for the discovery: whatever is done with the
    balancer afterwards (calls, registrations, further closes, runs of the
    repeater's task, periodic or forced by [getConn]), no discovery is run,
    the repeater is not revived and the state published before the close
    stays the one the calls select from. *)
Theorem Close_is_final ctx0 (l : list Action) w wc cevs state :
  connectionsState (bal w) = Some state ->
  Close ctx0 w = Some (None, wc, cevs) ->
  exists w' evs,
    performAll l wc = Some (tt, w', evs) /\
    connectionsState (bal w') = Some state /\
    running (discoveryRepeater (bal w')) = false /\
    Forall (fun e => isDiscoveryEvent e = false) evs.
Proof.
  intros Hst Hclose. apply performAll_not_running.
  - unfold Close, bind, emit, gets, modify, ret in Hclose. simpl in Hclose.
    destruct (discoveryRepeater (bal w)); simpl in Hclose;
      by injection Hclose as <- <-.
  - unfold Close, bind, emit, gets, modify, ret in Hclose. simpl in Hclose.
    destruct (discoveryRepeater (bal w)) as [r|] eqn:Hrep; simpl in Hclose;
      injection Hclose as <- <-; simpl; by rewrite ?Hrep.
Qed.

(** X15. Outside single-connection mode [New] returns a balancer exactly
    when the initial discovery succeeded. The balancer then is the one the
    discovery left, with a repeater of the configured interval, not
    stopped and with no pending run, created after the discovery if the
    interval is positive, and as the discovery left it otherwise. When the
    discovery failed, its error comes back under a stack trace and no
    repeater is created, whatever the interval. *)
Theorem New_after_discovery ctx (cfg : Config Env) (dc : DiscoveryConfig) s r w1 evs1 :
  SingleConn (balancerConfig (initialBalancer cfg)) = false ->
  clusterDiscovery ctx {| store := s; bal := initialBalancer cfg |} = Some (r, w1, evs1) ->
  match r with
  | Some e =>
      New ctx cfg dc s =
        Some (inr (WithStackTrace e), store w1,
              EvTrace OnBalancerInit :: evs1
              ++ [EvTrace (OnBalancerInitDone (Some (WithStackTrace e)))])
  | None =>
      New ctx cfg dc s =
        Some (inl (if 0 <? Interval dc
                   then set_discoveryRepeater (Some (repeaterNew (Interval dc))) (bal w1)
                   else bal w1),
              store w1,
              EvTrace OnBalancerInit :: evs1
              ++ (if 0 <? Interval dc then [EvRepeaterNew (Interval dc)] else [])
              ++ [EvTrace (OnBalancerInitDone None)]) /\
      running (Some (repeaterNew (Interval dc))) = true /\
      repForced (repeaterNew (Interval dc)) = 0%nat
  end.
Proof.
  intros Hsingle Hrun.
  unfold New. fold (initialBalancer cfg).
  unfold initBalancer, bind. unfold emit at 1, gets at 1. simpl.
  unfold initialBalancer in Hsingle. simpl in Hsingle. rewrite Hsingle.
  fold (initialBalancer cfg). rewrite Hrun.
  destruct r as [e|]; simpl.
  - by rewrite <- app_assoc.
  - destruct (0 <? Interval dc); simpl; split_and!; try done.
    all: by rewrite <- ?app_assoc, ?app_nil_r.
Qed.

(** X16. [endpointsToConnections] asks the pool once per endpoint, in the
    order of the list, and returns the connections in that order, one per
    endpoint (an endpoint listed twice gives two entries); it changes
    nothing. *)
Theorem endpointsToConnections_one_per_endpoint (endpoints : list Endpoint) w :
  exists conns,
    endpointsToConnections endpoints w = Some (conns, w, map EvPoolGet endpoints) /\
    map connEndpoint conns = endpoints /\
    connAddresses conns = addresses endpoints.
Proof.
  exists (map poolGet endpoints). split; [apply endpointsToConnections_run|].
  split.
  - induction endpoints as [|e es IH]; [reflexivity|]. simpl. by rewrite IH.
  - apply connAddresses_poolGet.
Qed.

End LifecycleFacts.

(** ** The further properties on the small cluster *)

Module MoreWitness.

Import Scenario.

#[local] Existing Instance SpecSelector.selector.
#[local] Existing Instance externals.
#[local] Existing Instance retryOnce.
#[local] Existing Instance ScenarioCalls.calls.


(** The call that forces a rediscovery leaves the pool and the state. *)
Lemma getConn_changes_only_forced_witness :
  exists res w' evs,
    getConn ctx0 (ready localsBanned) = Some (res, w', evs) /\
    store w' = localsBanned /\
    connectionsState (bal w') = Some snapshot /\
    List.filter isPoolCallEvent evs = [].
Proof.
  do 3 eexists. split; [reflexivity|].
  destruct (getConn_changes_only_forced ctx0 (ready localsBanned) _ _ _ eq_refl)
    as (Hs & Hc & _ & _ & _ & Hp & _).
  split; [exact Hs|]. split; [exact Hc | exact Hp].
Defined.

(** The same call after [Close]: the remote connection, and a forced run
    on the stopped repeater. *)
Lemma getConn_after_Close_witness :
  exists wc cevs w'',
    Close ctx0 (ready localsBanned) = Some (None, wc, cevs) /\
    getConn ctx0 wc =
      Some (inl connC, w'',
            [EvTrace OnBalancerChooseEndpoint; EvRLock; EvRead; EvRUnlock;
             EvSelect ctx0; EvForce;
             EvTrace (OnBalancerChooseEndpointDone (Some remote) None)]) /\
    (repStopped <$> discoveryRepeater (bal w'')) = Some true.
Proof.
  do 2 eexists.
  destruct (getConn_after_Close ctx0 ctx0 (ready localsBanned) _ _ _ _ _ eq_refl eq_refl)
    as (w'' & Hget & _ & _ & Hstop).
  exists w''. split; [reflexivity|]. split; [exact Hget|].
  apply Hstop. discriminate.
Defined.

(** A call that succeeds on the first local connection. *)
Lemma wrapCall_nil_means_operation_ran_witness :
  exists w' evs,
    wrapCall ctx0 opOk (ready store0) = Some (None, w', evs) /\
    exists cc w1 evs1 ctx' s2 s3,
      getConn ctx0 (ready store0) = Some (inl cc, w1, evs1) /\
      MetaContext (driverConfig (bal w1)) ctx0 (store w1) = ((ctx', None), s2) /\
      opOk ctx' cc s2 = (None, s3) /\
      EvOperation ctx' cc ∈ evs /\
      GetState (store w') cc <> Banned.
Proof.
  do 2 eexists. split; [reflexivity|].
  apply (wrapCall_nil_means_operation_ran ctx0 opOk (ready store0)). reflexivity.
Defined.

(** A call that fails is not tried again on another connection. *)
Lemma wrapCall_never_retries_witness :
  exists r w' evs,
    wrapCall ctx0 opUnavailable (ready store0) = Some (r, w', evs) /\
    (length (List.filter isOperationEvent evs) <= 1)%nat /\
    (length (List.filter isMetaEvent evs) <= 1)%nat /\
    (length (List.filter isOperationEvent evs) <= length (List.filter isMetaEvent evs))%nat.
Proof.
  do 3 eexists. split; [reflexivity|].
  eapply (wrapCall_never_retries ctx0 opUnavailable (ready store0)). reflexivity.
Defined.

(** A call on a cancelled context. *)
Lemma wrapCall_without_connection_witness :
  wrapCall ctx0 opOk (ready (cancelCtx ctx0 store0)) =
    Some (Some (WithStackTrace (WithStackTrace (ContextError CtxCanceled))),
          ready (cancelCtx ctx0 store0),
          [EvTrace OnBalancerChooseEndpoint;
           EvTrace (OnBalancerChooseEndpointDone None
                      (Some (WithStackTrace (ContextError CtxCanceled))))]).
Proof.
  destruct (wrapCall_without_connection ctx0 opOk (ready (cancelCtx ctx0 store0))
              _ _ _ eq_refl) as (Hrun & _).
  exact Hrun.
Defined.

(** A unary call that the node answers. *)
Lemma Invoke_nil_means_sent_witness :
  exists w' evs,
    Invoke ctx0 "Ping" (ready store0) = Some (None, w', evs) /\
    exists cc w1 evs1 ctx' s2 s3,
      getConn ctx0 (ready store0) = Some (inl cc, w1, evs1) /\
      MetaContext (driverConfig (bal w1)) ctx0 (store w1) = ((ctx', None), s2) /\
      connInvoke "Ping" ctx' cc s2 = (None, s3) /\
      evs = evs1 ++ [EvMeta ctx0; EvOperation ctx' cc]
            ++ (if decide (GetState s3 cc = Banned) then [EvPoolAllow ctx' cc] else []) /\
      GetState (store w') cc <> Banned.
Proof.
  do 2 eexists. split; [reflexivity|].
  apply (Invoke_nil_means_sent ctx0 "Ping" (ready store0)). reflexivity.
Defined.

(** A round on the small cluster with both local connections Banned:
    the three reported endpoints are allowed and stamped with the time of
    the round, then published. *)
Lemma successful_round_applies_endpoints_witness :
  exists w' evs,
    clusterDiscoveryAttempt ctx0 (ready localsBanned) = Some (None, w', evs) /\
    exists endpoints localDC s1 s2 s0,
      dialContext (dialTarget (ready localsBanned)) child0 localsBanned = (None, s1) /\
      clientDiscover child0 s1 = ((endpoints, None), s2) /\
      detectLocalDC child0 endpoints s2 = ((localDC, None), s0) /\
      (forall e, e ∈ endpoints ->
         GetState (allowAll (map poolGet endpoints) s0) (poolGet e) = Allowed /\
         lastSeen (allowAll (map poolGet endpoints) s0) !! Address e = Some (clock s0)) /\
      connectionsState (bal w') =
        Some (discoveredState (ready localsBanned) endpoints localDC) /\
      store w' =
        cancelCtx child0
          (clientClose ctx0
             (notifyAll child0 endpoints [7%nat; 8%nat]
                (allowAll (map poolGet endpoints) s0))).
Proof.
  do 2 eexists. split; [reflexivity|].
  edestruct (successful_round_applies_endpoints ctx0 (ready localsBanned))
    as (eps & dc & s1 & s2 & s0 & Hdial & Hdisc & Hdet & _ & Hall & Hst & _ & Hstore);
    [reflexivity|].
  exists eps, dc, s1, s2, s0.
  split; [exact Hdial|]. split; [exact Hdisc|]. split; [exact Hdet|].
  split; [exact Hall|]. split; [exact Hst | exact Hstore].
Defined.

(** An attempt whose dial fails. *)
Lemma clusterDiscoveryAttempt_failure_keeps_state_witness :
  exists e w' evs,
    clusterDiscoveryAttempt ctx0
      (ready (dialFails (TransportError 14 "unavailable") localsBanned))
      = Some (Some e, w', evs) /\
    bal w' = bal (ready (dialFails (TransportError 14 "unavailable") localsBanned)) /\
    List.filter isApplyEvent evs = [].
Proof.
  do 3 eexists. split; [reflexivity|].
  eapply (clusterDiscoveryAttempt_failure_keeps_state ctx0). reflexivity.
Defined.

(** An attempt that succeeds, with the detector. *)
Lemma clusterDiscoveryAttempt_success_publishes_witness :
  exists w' evs,
    clusterDiscoveryAttempt ctx0 (ready localsBanned) = Some (None, w', evs) /\
    exists endpoints localDC s1 s2,
      dialContext (dialTarget (ready localsBanned)) child0 localsBanned = (None, s1) /\
      clientDiscover child0 s1 = ((endpoints, None), s2) /\
      (exists s3, detectLocalDC child0 endpoints s2 = ((localDC, None), s3)) /\
      bal w' = set_connectionsState
                 (Some (discoveredState (ready localsBanned) endpoints localDC))
                 (bal (ready localsBanned)) /\
      List.filter isApplyEvent evs = applyEvents child0 endpoints [7%nat; 8%nat] /\
      (EvDetectLocalDC child0 ∈ evs <-> true = true).
Proof.
  do 2 eexists. split; [reflexivity|].
  apply (clusterDiscoveryAttempt_success_publishes ctx0 (ready localsBanned)).
  reflexivity.
Defined.


(** After [Close]: a call that would force a run, the run itself, a call
    and a second close. *)
Lemma Close_is_final_witness :
  exists wc w' evs,
    Close ctx0 (ready localsBanned) =
      Some (None, wc, [EvTrace OnBalancerClose; EvStop; EvTrace (OnBalancerCloseDone None)]) /\
    performAll [DoGetConn ctx0; DoRepeaterRun ctx0; DoWrapCall ctx0 opOk; DoClose ctx0] wc
      = Some (tt, w', evs) /\
    connectionsState (bal w') = Some snapshot /\
    running (discoveryRepeater (bal w')) = false /\
    Forall (fun e => isDiscoveryEvent e = false) evs.
Proof.
  eexists. 
  destruct (Close_is_final ctx0
              [DoGetConn ctx0; DoRepeaterRun ctx0; DoWrapCall ctx0 opOk; DoClose ctx0]
              (ready localsBanned) _ _ snapshot eq_refl eq_refl)
    as (w' & evs & Hrun & Hst & Hrep & Hev).
  exists w', evs. split; [reflexivity|]. by split_and!.
Defined.

(** [New] on the small cluster with a refresh every 60. *)
Lemma New_after_discovery_witness :
  exists b s' evs,
    New ctx0 (config balancerCfg) {| Interval := 60 |} store0 = Some (inl b, s', evs) /\
    discoveryRepeater b = Some (repeaterNew 60) /\
    running (discoveryRepeater b) = true.
Proof.
  edestruct (New_after_discovery ctx0 (config balancerCfg) {| Interval := 60 |} store0 None)
    as (Hnew & Hrun & _); [reflexivity | reflexivity |].
  do 3 eexists. split; [exact Hnew|]. split; [reflexivity | exact Hrun].
Defined.

End MoreWitness.
